(** * rawgraphs-core, module [dataset]: type inference and tolerant parsing

    A shallow embedding of [inferTypes] and [parseDataset] (with their
    helpers [getFormatter], [getValueType], [castTypeToString],
    [basicGetter], [checkType], [rowParser] and [parseRows]) and the
    properties the specification states about them.

    Conventions of the embedding.
    - A JavaScript value is a [jsvalue]; a number is an IEEE 754 binary64
      [float], a string a [string] (read as a sequence of code units).
    - A [throw] is the [Throw] case of [result]; [try]/[catch] is a match.
    - The objects the code builds and indexes by column name (the type
      map, [propGetters], [out], [error], [candidateTypes],
      [inferredTypes]) are [gmap string _]: nothing below depends on
      the order in which their keys are enumerated.  The [counts] object
      of [inferTypes] is an association list in insertion order, because
      [maxBy] breaks ties by the order of [Object.keys(counts)]; its keys
      are type names, never array indices, so insertion order is the
      enumeration order.
    - In [propGetters], [out] and [error] an assignment [o[k] = v] is read
      as the insertion of [k].  That is what the assignment does for
      every name but [__proto__], for which it creates no property;
      [assign] and the definitions built on it ([assignedGetters],
      [assignedCells], [castTypesToString]) spell the assignment out, and
      agree with the maps on every type map without that key.  The keys
      [inferTypes] assigns are never [__proto__]: its first loop throws
      on that name.
    - Code that is not part of the module (lodash [get], [JSON.parse],
      dayjs, string/number conversion, [getType] of [./utils]) is a field
      of the class [Externals]. *)

From Stdlib Require Import Floats.PrimFloat Strings.Ascii.
From stdpp Require Import gmap strings list fin_maps pretty.

Open Scope string_scope.
Open Scope list_scope.
Open Scope nat_scope.
Set Warnings "-register-all".

(** ** Values, exceptions, functions *)

Inductive jsvalue :=
| Undefined
| Null
| Bool (b : bool)
| Num (x : float)
| Str (s : string)
| DateObj (t : float)                      (* a Date instance, [t] its time value; NaN is Invalid Date *)
| Obj (fields : list (string * jsvalue))   (* a plain object: its own enumerable properties, each name once, in order *)
| Arr (items : list jsvalue).

Inductive exn :=
| RAWError (message : string)
| TypeError
| Thrown (v : jsvalue).                    (* whatever a caller-supplied function throws *)

Inductive result (A : Type) :=
| Ok (a : A)
| Throw (e : exn).
Arguments Ok {A} a.
Arguments Throw {A} e.

#[global] Instance result_ret : MRet result := λ A a, Ok a.
#[global] Instance result_bind : MBind result := λ A B f m,
  match m with
  | Ok a => f a
  | Throw e => Throw e
  end.

(** The functions a type descriptor can resolve to: the four built-in
    constructors, or any other function (with its [name] property and
    its source text). *)
Inductive jsfunction :=
| JsNumber
| JsBoolean
| JsString
| JsDate
| JsFunction (name source : string) (call : jsvalue → result jsvalue).

(** A type descriptor as found in a type map: a constructor, a type name,
    or a plain object [{ type, dateFormat, decode }].  [dateFormat] is
    [Some] exactly when the property is a string, [decode] when it is a
    function.  These are the properties the parser reads and the ones
    [getValueType] sets; a descriptor object with a further [name]
    property, which [castTypeToString] would read, is not represented. *)
Inductive dataType :=
| TFun (f : jsfunction)
| TStr (s : string)
| TObj (type : option dataType) (dateFormat : option string)
       (decode : option (jsvalue → result jsvalue)).

(** ** What the module imports *)

Class Externals := {
  (** lodash [get(object, path)] *)
  get : jsvalue → string → jsvalue;
  (** [JSON.parse(value)]; [None] when it throws *)
  JSON_parse : jsvalue → option jsvalue;
  (** the time value of [dayjs(value, format)] under the customParseFormat
      plugin; NaN when the result is not valid *)
  dayjs : jsvalue → string → float;
  (** string to number, number to string and date to string conversions
      of the language *)
  StringToNumber : string → float;
  NumberToString : float → string;
  DateToString : float → string;
  (** [Date()] called as a function: the current time, as a string.  The
      field stands for what the call at hand returned; the clock moves
      between calls, so nothing is stated about two calls. *)
  Date_call : string;
  (** [getType] of [./utils]: the function a descriptor stands for, [None]
      when the result is not a function *)
  getType : dataType → option jsfunction;
}.

Section Dataset.
Context `{Externals}.

(** ** Language-level conversions *)

Fixpoint assoc {A : Type} (key : string) (l : list (string * A)) : option A :=
  match l with
  | [] => None
  | (k, a) :: l' => if String.eqb k key then Some a else assoc key l'
  end.

(** The conversion of a value to a string, as in [String(v)] and in a
    template literal.  An object is converted by the [toString] it
    inherits; an own property of that name holds data, which cannot be
    called, and the conversion is then a TypeError.  An array joins the
    strings of its elements, from left to right. *)
Fixpoint ToString (v : jsvalue) : result string :=
  match v with
  | Undefined => Ok "undefined"
  | Null => Ok "null"
  | Bool true => Ok "true"
  | Bool false => Ok "false"
  | Num x => Ok (NumberToString x)
  | Str s => Ok s
  | DateObj t => Ok (DateToString t)
  | Obj fields =>
      match assoc "toString" fields with
      | Some _ => Throw TypeError
      | None => Ok "[object Object]"
      end
  | Arr items =>
      parts ← (fix join (l : list jsvalue) : result (list string) :=
                 match l with
                 | [] => Ok []
                 | x :: l' =>
                     s ← match x with
                         | Undefined | Null => Ok ""
                         | _ => ToString x
                         end;
                     rest ← join l';
                     Ok (s :: rest)
                 end) items;
      Ok (String.concat "," parts)
  end.

(** The conversion of a value to a number, as in [Number(v)] and in
    [isNaN(v)]: an object or an array goes through its string. *)
Definition ToNumber (v : jsvalue) : result float :=
  match v with
  | Undefined => Ok PrimFloat.nan
  | Null => Ok PrimFloat.zero
  | Bool true => Ok PrimFloat.one
  | Bool false => Ok PrimFloat.zero
  | Num x => Ok x
  | Str s => Ok (StringToNumber s)
  | DateObj t => Ok t
  | Obj _ | Arr _ => s ← ToString v; Ok (StringToNumber s)
  end.

Definition ToBoolean (v : jsvalue) : bool :=
  match v with
  | Undefined | Null => false
  | Bool b => b
  | Num x => negb (is_zero x || is_nan x)
  | Str s => negb (String.eqb s "")
  | DateObj _ | Obj _ | Arr _ => true
  end.

(** The global [isNaN]. *)
Definition isNaN (v : jsvalue) : result bool := x ← ToNumber v; Ok (is_nan x).

(** Calling [f(v)]; [f] is [None] when it is not a function. *)
Definition call (f : option jsfunction) (v : jsvalue) : result jsvalue :=
  match f with
  | None => Throw TypeError
  | Some JsNumber => x ← ToNumber v; Ok (Num x)
  | Some JsBoolean => Ok (Bool (ToBoolean v))
  | Some JsString => s ← ToString v; Ok (Str s)
  | Some JsDate => Ok (Str Date_call)
  | Some (JsFunction _ _ g) => g v
  end.

Definition isNumber (v : jsvalue) : bool :=
  match v with Num _ => true | _ => false end.
Definition isBoolean (v : jsvalue) : bool :=
  match v with Bool _ => true | _ => false end.
Definition isDate (v : jsvalue) : bool :=
  match v with DateObj _ => true | _ => false end.
Definition isArray (v : jsvalue) : bool :=
  match v with Arr _ => true | _ => false end.

(** [dayjs(d).isValid()] for a Date instance [d] with time value [t]. *)
Definition isValid (t : float) : bool := negb (is_nan t).

(** ** The tolerant parser *)

Definition getFormatter (dataType : dataType) : option (jsvalue → result jsvalue) :=
  match dataType with
  | TObj _ dateFormat decode =>
      match decode with
      | Some f => Some f
      | None =>
          match getType dataType, dateFormat with
          | Some JsDate, Some fmt => Some (λ value, Ok (DateObj (dayjs value fmt)))
          | _, _ => None
          end
      end
  | _ => None
  end.

Definition basicGetter (rowValue : jsvalue) (dataType : option jsfunction) : result jsvalue :=
  match rowValue with
  | Null | Undefined => Ok Null
  | _ => call dataType rowValue
  end.

Definition checkType (value : jsvalue) (type : option jsfunction) : result unit :=
  match type with
  | Some JsNumber =>
      notANumber ← isNaN value;
      if (notANumber : bool)
      then s ← ToString value;
           @Throw unit (RAWError ("invalid type number for value " +:+ s))
      else Ok ()
  | Some JsDate =>
      match value with
      | DateObj t =>
          if isValid t then Ok ()
          else s ← ToString value;
               @Throw unit (RAWError ("invalid type date for value " +:+ s))
      | _ => s ← ToString value;
             @Throw unit (RAWError ("invalid type date for value " +:+ s))
      end
  | _ => Ok ()
  end.

(** The arrow function [(x) => x] of [rowParser]. *)
Definition identity : jsfunction := JsFunction "" "(x) => x" (λ x, Ok x).

(** The closure stored in [propGetters[k]]. *)
Definition propGetter (k : string) (dataType : dataType) : jsvalue → result jsvalue :=
  let type := getType dataType in
  let formatter := getFormatter dataType in
  λ row,
    let rowValue := get row k in
    formattedValue ← match formatter with
                     | Some f => f rowValue
                     | None => Ok rowValue
                     end;
    out ← basicGetter formattedValue
            (match formatter with Some _ => Some identity | None => type end);
    _ ← checkType out type;
    Ok out.

Definition propGetters (types : gmap string dataType)
  : gmap string (jsvalue → result jsvalue) :=
  map_imap (λ k dataType, Some (propGetter k dataType)) types.

(** The body of the [forEach] over [Object.keys(propGetters)]: the pair is
    [(out, error)]. *)
Definition parseCell (row : jsvalue) (k : string) (getter : jsvalue → result jsvalue)
    (acc : gmap string jsvalue * gmap string exn)
  : gmap string jsvalue * gmap string exn :=
  match getter row with
  | Ok v => (<[k := v]> acc.1, acc.2)
  | Throw err => (<[k := Null]> acc.1, <[k := err]> acc.2)
  end.

(** The [forEach] over [Object.keys(propGetters)], from [out = {}] and
    [error = {}]. *)
Definition parseCells (propGetters : gmap string (jsvalue → result jsvalue))
    (row : jsvalue) : gmap string jsvalue * gmap string exn :=
  map_fold (parseCell row) (∅, ∅) propGetters.

(** [o[k] = v] on an object created by [{}], as to its own properties:
    the property [k] is set, except that for [k = "__proto__"] the setter
    inherited from [Object.prototype] runs and no own property is created. *)
Definition assign {A : Type} (o : gmap string A) (k : string) (v : A) : gmap string A :=
  if String.eqb k "__proto__" then o else <[k := v]> o.

(** The own properties of [propGetters] after the [forEach] over
    [Object.keys(types)], and of [out] and [error] after the [forEach] over
    [Object.keys(propGetters)], with every assignment spelled out. *)
Definition assignedGetters (types : gmap string dataType)
  : gmap string (jsvalue → result jsvalue) :=
  map_fold (λ k dataType acc, assign acc k (propGetter k dataType)) ∅ types.

Definition assignedCell (row : jsvalue) (k : string) (getter : jsvalue → result jsvalue)
    (acc : gmap string jsvalue * gmap string exn)
  : gmap string jsvalue * gmap string exn :=
  match getter row with
  | Ok v => (assign acc.1 k v, acc.2)
  | Throw err => (assign acc.1 k Null, assign acc.2 k err)
  end.

Definition assignedCells (propGetters : gmap string (jsvalue → result jsvalue))
    (row : jsvalue) : gmap string jsvalue * gmap string exn :=
  map_fold (assignedCell row) (∅, ∅) propGetters.

(** [rowParser(types, onError)]: the returned function, with the state [S]
    that [onError] updates passed explicitly. *)
Definition rowParser {S : Type} (types : gmap string dataType)
    (onError : option (gmap string exn → nat → S → S))
  : jsvalue → nat → S → gmap string jsvalue * S :=
  let propGetters := propGetters types in
  λ row i s,
    let '(out, error) := parseCells propGetters row in
    let s' := if bool_decide (size error ≠ 0)
              then match onError with Some f => f error i s | None => s end
              else s in
    (out, s').

(** [Array.prototype.map] with a callback that reads the index and updates
    a state. *)
Fixpoint Array_map_from {S A B : Type} (f : A → nat → S → B * S)
    (i : nat) (l : list A) (s : S) : list B * S :=
  match l with
  | [] => ([], s)
  | x :: l' =>
      let '(y, s1) := f x i s in
      let '(ys, s2) := Array_map_from f (Datatypes.S i) l' s1 in
      (y :: ys, s2)
  end.

Record RowError := { row : nat; error : gmap string exn }.

Definition parseRows (data : jsvalue) (dataTypes : gmap string dataType)
  : result (list (gmap string jsvalue) * list RowError) :=
  let parser := rowParser dataTypes
    (Some (λ error i errors, errors ++ [{| row := i; error := error |}])) in
  match data with
  | Arr items => Ok (Array_map_from parser 0 items [])
  | _ => Throw TypeError                   (* [data.map] is not a function *)
  end.

(** ** Type inference *)

Definition getValueType (value : jsvalue) (strict : bool) : dataType :=
  let jsonValue :=
    if strict then value
    else match JSON_parse value with
         | Some parsed => parsed
         | None => value
         end in
  if isNumber jsonValue then TStr "number"
  else if isBoolean jsonValue then TStr "boolean"
  else if isDate value then TStr "date"
  else
    let dateFormatTest := "YYYY-MM-DD" in
    let testDateWithFormat := dayjs value dateFormatTest in
    if isValid testDateWithFormat
    then TObj (Some (TStr "date")) (Some dateFormatTest) None
    else TStr "string".

(** [String.prototype.toLowerCase] on names written in ASCII: the letters
    A to Z are mapped, every other character is kept.  The names of the
    four constructors are of that kind. *)
Definition lower_ascii (c : ascii) : ascii :=
  let n := nat_of_ascii c in
  if Nat.leb 65 n && Nat.leb n 90 then ascii_of_nat (n + 32) else c.

Fixpoint toLowerCase (s : string) : string :=
  match s with
  | EmptyString => EmptyString
  | String c s' => String (lower_ascii c) (toLowerCase s')
  end.

(** The [name] property of a function. *)
Definition function_name (f : jsfunction) : string :=
  match f with
  | JsNumber => "Number"
  | JsBoolean => "Boolean"
  | JsString => "String"
  | JsDate => "Date"
  | JsFunction name _ _ => name
  end.

(** [type.name ? type.name.toLowerCase() : type]: of the descriptors
    represented, only a function has a [name]; the empty name of an
    anonymous function is falsy. *)
Definition castTypeToString (type : dataType) : dataType :=
  match type with
  | TFun f =>
      if String.eqb (function_name f) "" then type
      else TStr (toLowerCase (function_name f))
  | _ => type
  end.

(** The [reduce] over [Object.keys(types)], with its assignment
    [acc[item] = castTypeToString(types[item])]. *)
Definition castTypesToString (types : gmap string dataType) : gmap string dataType :=
  map_fold (λ item type acc, assign acc item (castTypeToString type)) ∅ types.

(** The names every object literal inherits from [Object.prototype]. *)
Definition Object_prototype_keys : list string :=
  [ "constructor"; "__defineGetter__"; "__defineSetter__"; "hasOwnProperty";
    "__lookupGetter__"; "__lookupSetter__"; "isPrototypeOf";
    "propertyIsEnumerable"; "toString"; "valueOf"; "__proto__";
    "toLocaleString" ].

(** The own enumerable properties of a value that has some: the fields of
    an object, the elements of an array and the characters of a string
    under their indices. *)
Definition own_properties (v : jsvalue) : list (string * jsvalue) :=
  match v with
  | Obj fields => fields
  | Arr items => imap (λ i x, (pretty i, x)) items
  | Str s => imap (λ i c, (pretty i, Str (String c EmptyString))) (String.list_ascii_of_string s)
  | _ => []
  end.

(** [Object.keys(v)] *)
Definition Object_keys (v : jsvalue) : result (list string) :=
  match v with
  | Undefined | Null => Throw TypeError
  | _ => Ok (fst <$> own_properties v)
  end.

(** [datum[key]] for an own enumerable [key]. *)
Definition property (datum : jsvalue) (key : string) : jsvalue :=
  match assoc key (own_properties datum) with
  | Some v => v
  | None => Undefined
  end.

(** [forEach] with a body that updates [s] and may throw. *)
Fixpoint forEach {A S : Type} (body : S → A → result S) (l : list A) (s : S)
  : result S :=
  match l with
  | [] => Ok s
  | x :: l' => s1 ← body s x; forEach body l' s1
  end.

(** One step of the inner loop of [inferTypes].  [candidateTypes[key]] of
    an inherited name is neither [undefined] nor an array, so that the
    [push] on it is a TypeError. *)
Definition pushCandidate (strict : bool) (datum : jsvalue)
    (candidateTypes : gmap string (list dataType)) (key : string)
  : result (gmap string (list dataType)) :=
  let inferredType := getValueType (property datum key) strict in
  match candidateTypes !! key with
  | Some types => Ok (<[key := types ++ [castTypeToString inferredType]]> candidateTypes)
  | None =>
      if bool_decide (key ∈ Object_prototype_keys) then Throw TypeError
      else Ok (<[key := [castTypeToString inferredType]]> candidateTypes)
  end.

(** The first loop of [inferTypes], over an array [data]. *)
Definition candidateTypes (data : list jsvalue) (strict : bool)
  : result (gmap string (list dataType)) :=
  forEach (λ acc datum,
             keys ← Object_keys datum;
             forEach (pushCandidate strict datum) keys acc)
          data ∅.

(** The property key a candidate is used as in [counts[type]]: a string is
    its own key, an object is converted by [Object.prototype.toString], a
    function by its source text. *)
Definition propertyKey (type : dataType) : string :=
  match type with
  | TStr s => s
  | TObj _ _ _ => "[object Object]"
  | TFun JsNumber => "function Number() { [native code] }"
  | TFun JsBoolean => "function Boolean() { [native code] }"
  | TFun JsString => "function String() { [native code] }"
  | TFun JsDate => "function Date() { [native code] }"
  | TFun (JsFunction _ source _) => source
  end.

Record Count := { count : nat; value : dataType }.

Fixpoint increment (key : string) (counts : list (string * Count))
  : list (string * Count) :=
  match counts with
  | [] => []
  | (k, c) :: counts' =>
      if String.eqb k key
      then (k, {| count := Datatypes.S (count c); value := value c |}) :: counts'
      else (k, c) :: increment key counts'
  end.

(** The body of [candidateTypes[k].forEach].  [counts[type]] is falsy only
    when [counts] has no property of that name, own or inherited; the
    increment of an inherited one leaves the own properties as they are. *)
Definition countType (counts : list (string * Count)) (type : dataType)
  : list (string * Count) :=
  let key := propertyKey type in
  let counts :=
    match assoc key counts with
    | Some _ => counts
    | None =>
        if bool_decide (key ∈ Object_prototype_keys) then counts
        else counts ++ [(key, {| count := 0; value := type |})]
    end in
  increment key counts.

(** lodash [maxBy]: the first element whose [iteratee] is the greatest. *)
Definition maxBy {A : Type} (array : list A) (iteratee : A → nat) : option A :=
  fold_left (λ res x,
               match res with
               | None => Some x
               | Some r => if Nat.ltb (iteratee r) (iteratee x) then Some x else res
               end) array None.

(** The body of [Object.keys(candidateTypes).map]: the value stored in
    [inferredTypes[k]].  [counts[t]] is an own property for every [t] of
    [Object.keys(counts)]; reading [value] of [counts[undefined]] is a
    TypeError. *)
Definition mostFrequentType (types : list dataType) : result dataType :=
  let counts := fold_left countType types [] in
  let mostFrequentTypeKey :=
    maxBy (fst <$> counts)
          (λ t, match assoc t counts with Some c => count c | None => 0 end) in
  match mostFrequentTypeKey with
  | Some key =>
      match assoc key counts with
      | Some c => Ok (value c)
      | None => Throw TypeError
      end
  | None => Throw TypeError
  end.

Definition inferTypes (data : jsvalue) (strict : bool) : result (gmap string dataType) :=
  match data with
  | Arr items =>
      candidates ← candidateTypes items strict;
      map_fold (λ k types acc,
                  inferredTypes ← acc;
                  type ← mostFrequentType types;
                  Ok (<[k := type]> inferredTypes))
               (Ok ∅) candidates
  | _ => Ok ∅
  end.

(** ** The entry point *)

Record ParserResult := {
  dataset : list (gmap string jsvalue);
  dataTypes : gmap string dataType;
  errors : list RowError;
}.

(** [types] is [None] when the argument is omitted (or falsy); [inferTypes]
    is then called without [strict]. *)
Definition parseDataset (data : jsvalue) (types : option (gmap string dataType))
  : result ParserResult :=
  dataTypes ← match types with
              | Some t => Ok t
              | None => inferTypes data false
              end;
  parsed ← parseRows data dataTypes;
  Ok {| dataset := parsed.1; dataTypes := dataTypes; errors := parsed.2 |}.

End Dataset.

(** ** A host for closed examples

    Each field is the real function on the inputs the examples use: flat
    records read by a plain property name, the literals [true], [false]
    and [null], unsigned integers written in decimal, and dates written
    [YYYY-MM-DD], in the UTC zone.  Elsewhere a field answers with a fixed
    value (NaN, [None] or a fixed string); no theorem is stated about the
    host itself. *)
Module Host.

Definition digit (c : ascii) : option N :=
  let n := N_of_ascii c in
  if N.leb 48 n && N.leb n 57 then Some (n - 48)%N else None.

Fixpoint digits (acc : N) (l : list ascii) : option N :=
  match l with
  | [] => Some acc
  | c :: l' =>
      match digit c with
      | Some d => digits (acc * 10 + d)%N l'
      | None => None
      end
  end.

Definition unsigned_integer (s : string) : option N :=
  match String.list_ascii_of_string s with
  | [] => None
  | l => digits 0 l
  end.

(** A JSON integer has no leading zero. *)
Definition json_integer (s : string) : option N :=
  match String.list_ascii_of_string s with
  | "0"%char :: _ :: _ => None
  | _ => unsigned_integer s
  end.

Fixpoint float_of_positive (p : positive) : float :=
  match p with
  | xH => PrimFloat.one
  | xO p' => PrimFloat.mul PrimFloat.two (float_of_positive p')
  | xI p' => PrimFloat.add (PrimFloat.mul PrimFloat.two (float_of_positive p')) PrimFloat.one
  end.

(** Exact below 2^53. *)
Definition float_of_Z (z : Z) : float :=
  match z with
  | Z0 => PrimFloat.zero
  | Zpos p => float_of_positive p
  | Zneg p => PrimFloat.opp (float_of_positive p)
  end.

(** Days between 1970-01-01 and the given civil date. *)
Definition days_from_civil (y m d : Z) : Z :=
  let y' := if Z.leb m 2 then (y - 1)%Z else y in
  let era := (y' `div` 400)%Z in
  let yoe := (y' - era * 400)%Z in
  let mp := if Z.leb m 2 then (m + 9)%Z else (m - 3)%Z in
  let doy := ((153 * mp + 2) `div` 5 + d - 1)%Z in
  let doe := (yoe * 365 + yoe `div` 4 - yoe `div` 100 + doy)%Z in
  (era * 146097 + doe - 719468)%Z.

Definition parse_ymd (s : string) : option Z :=
  match String.list_ascii_of_string s with
  | [y1; y2; y3; y4; "-"%char; m1; m2; "-"%char; d1; d2] =>
      match digits 0 [y1; y2; y3; y4], digits 0 [m1; m2], digits 0 [d1; d2] with
      | Some y, Some m, Some d =>
          if N.leb 1 m && N.leb m 12 && N.leb 1 d && N.leb d 31
          then Some (days_from_civil (Z.of_N y) (Z.of_N m) (Z.of_N d) * 86400000)%Z
          else None
      | _, _, _ => None
      end
  | _ => None
  end.

(** The own property of that name; lodash [get] agrees for a path that is
    a plain name which [Object.prototype] does not have. *)
Definition host_get (object : jsvalue) (path : string) : jsvalue :=
  match object with
  | Obj _ => property object path
  | _ => Undefined
  end.

Definition host_JSON_parse (v : jsvalue) : option jsvalue :=
  match v with
  | Null | Bool _ | Num _ => Some v
  | Str "true" => Some (Bool true)
  | Str "false" => Some (Bool false)
  | Str "null" => Some Null
  | Str s => (λ n, Num (float_of_Z (Z.of_N n))) <$> json_integer s
  | _ => None
  end.

Definition host_dayjs (v : jsvalue) (format : string) : float :=
  match v with
  | Str s =>
      if String.eqb format "YYYY-MM-DD"
      then match parse_ymd s with
           | Some t => float_of_Z t
           | None => PrimFloat.nan
           end
      else PrimFloat.nan
  | _ => PrimFloat.nan
  end.

Definition host_StringToNumber (s : string) : float :=
  if String.eqb s "" then PrimFloat.zero
  else match unsigned_integer s with
       | Some n => float_of_Z (Z.of_N n)
       | None => PrimFloat.nan
       end.

Definition host_NumberToString (x : float) : string :=
  if is_nan x then "NaN" else if is_zero x then "0" else "".

Definition host_DateToString (t : float) : string :=
  if is_nan t then "Invalid Date" else "".

(** Modelled from the spec: [getType] of [./utils], which is not part of
    the sources at hand.  A primitive descriptor is its own constructor, a
    type name (as [inferTypes] returns them) stands for the constructor of
    that name, and a configured descriptor for the type of its [type]
    property.  The spec names no function for other descriptors. *)
Fixpoint host_getType (dataType : dataType) : option jsfunction :=
  match dataType with
  | TFun f => Some f
  | TStr "number" => Some JsNumber
  | TStr "boolean" => Some JsBoolean
  | TStr "string" => Some JsString
  | TStr "date" => Some JsDate
  | TStr _ => None
  | TObj (Some type) _ _ => host_getType type
  | TObj None _ _ => None
  end.

#[export] Instance host : Externals := {|
  get := host_get;
  JSON_parse := host_JSON_parse;
  dayjs := host_dayjs;
  StringToNumber := host_StringToNumber;
  NumberToString := host_NumberToString;
  DateToString := host_DateToString;
  Date_call := "Thu Jan 01 1970 00:00:00 GMT+0000 (Coordinated Universal Time)";
  getType := host_getType;
|}.

End Host.

(** ** Inputs of the closed examples *)
Module Sample.

(** [[{n: "5"}, {n: "bad"}]] parsed with [{n: Number}]. *)
Definition rows : list jsvalue :=
  [Obj [("n", Str "5")]; Obj [("n", Str "bad")]].
Definition types : gmap string dataType := {["n" := TFun JsNumber]}.
Definition parsed : ParserResult :=
  {| dataset := [{["n" := Num 5%float]}; {["n" := Null]}];
     dataTypes := types;
     errors := [{| row := 1;
                   error := {["n" := RAWError "invalid type number for value NaN"]} |}] |}.

(** [[{x: 1}]] parsed with [{x: Number, y: String}]: column [y] is missing. *)
Definition sparse : list jsvalue := [Obj [("x", Num 1%float)]].
Definition sparseTypes : gmap string dataType :=
  <["x" := TFun JsNumber]> {["y" := TFun JsString]}.
Definition sparseParsed : ParserResult :=
  {| dataset := [<["x" := Num 1%float]> {["y" := Null]}];
     dataTypes := sparseTypes;
     errors := [] |}.

(** [[{b: "false"}]] parsed with [{b: Boolean}]. *)
Definition flags : list jsvalue := [Obj [("b", Str "false")]].
Definition flagTypes : gmap string dataType := {["b" := TFun JsBoolean]}.
Definition flagsParsed : ParserResult :=
  {| dataset := [{["b" := Bool true]}]; dataTypes := flagTypes; errors := [] |}.

(** [[{b: true}]] parsed with [{b: String}]. *)
Definition truths : list jsvalue := [Obj [("b", Bool true)]].
Definition labelTypes : gmap string dataType := {["b" := TFun JsString]}.
Definition truthsParsed : ParserResult :=
  {| dataset := [{["b" := Str "true"]}]; dataTypes := labelTypes; errors := [] |}.

(** [[{}]] parsed with [{d: Date}]: the only column is missing. *)
Definition undated : list jsvalue := [Obj []].
Definition dateTypes : gmap string dataType := {["d" := TFun JsDate]}.
Definition undatedParsed : ParserResult :=
  {| dataset := [{["d" := Null]}];
     dataTypes := dateTypes;
     errors := [{| row := 0;
                   error := {["d" := RAWError "invalid type date for value null"]} |}] |}.

(** [[{d: "2020-01-01"}]]. *)
Definition dated : list jsvalue := [Obj [("d", Str "2020-01-01")]].

(** The type map [{d: {type: Date, dateFormat: "YYYY-MM-DD"}}], used with
    [undated] and with [dated]. *)
Definition formattedDateTypes : gmap string dataType :=
  {["d" := TObj (Some (TFun JsDate)) (Some "YYYY-MM-DD") None]}.

(** [dated] parsed with it. *)
Definition datedParsed : ParserResult :=
  {| dataset := [{["d" := DateObj 1577836800000%float]}];
     dataTypes := formattedDateTypes;
     errors := [] |}.

(** The type map [{d: {decode: (v) => v === undefined ? "n/a" : v}}], and
    [undated] parsed with it. *)
Definition orNotAvailable (v : jsvalue) : result jsvalue :=
  match v with
  | Undefined => Ok (Str "n/a")
  | _ => Ok v
  end.
Definition decodedTypes : gmap string dataType :=
  {["d" := TObj None None (Some orNotAvailable)]}.

Definition decodedParsed : ParserResult :=
  {| dataset := [{["d" := Str "n/a"]}]; dataTypes := decodedTypes; errors := [] |}.

(** [[{a: "3"}, {a: "4"}, {a: "x"}]]: two numbers and a string. *)
Definition votes : list jsvalue :=
  [Obj [("a", Str "3")]; Obj [("a", Str "4")]; Obj [("a", Str "x")]].

Definition voteCandidates : gmap string (list dataType) :=
  {["a" := [TStr "number"; TStr "number"; TStr "string"]]}.

(** [[{a: "x"}, {a: "3"}]]: a string first, then a number. *)
Definition tie : list jsvalue :=
  [Obj [("a", Str "x")]; Obj [("a", Str "3")]].
Definition tieCandidates : gmap string (list dataType) :=
  {["a" := [TStr "string"; TStr "number"]]}.

(** The type map [{["__proto__"]: Number}], whose only key is an own
    property named [__proto__]. *)
Definition protoTypes : gmap string dataType := {["__proto__" := TFun JsNumber]}.

(** Two configured dates that differ in their format only. *)
Definition isoDate : dataType := TObj (Some (TStr "date")) (Some "YYYY-MM-DD") None.
Definition dmyDate : dataType := TObj (Some (TStr "date")) (Some "DD/MM/YYYY") None.

End Sample.

(** * Properties *)

(** ** Vocabulary of the statements *)

(** The value a cell holds and the error recorded for it, when its getter
    ends in [r]. *)
Definition cellValue (r : result jsvalue) : jsvalue :=
  match r with Ok v => v | Throw _ => Null end.
Definition cellError (r : result jsvalue) : option exn :=
  match r with Ok _ => None | Throw e => Some e end.

(** The error list as the specification words it: going through the rows
    in order, one entry for each row whose error map is not empty. *)
Fixpoint rowErrors `{Externals} (types : gmap string dataType) (i : nat)
    (items : list jsvalue) : list RowError :=
  match items with
  | [] => []
  | rowv :: rest =>
      let e := (parseCells (propGetters types) rowv).2 in
      (if bool_decide (e ≠ ∅) then [{| row := i; error := e |}] else [])
        ++ rowErrors types (S i) rest
  end.

(** How often a property key occurs among the candidates of a column. *)
Definition occurrences (key : string) (types : list dataType) : nat :=
  length (filter (λ t, propertyKey t = key) types).

(** The candidates that are the first of their key, in order. *)
Fixpoint first_seen (types : list dataType) : list dataType :=
  match types with
  | [] => []
  | t :: rest => t :: filter (λ u, propertyKey u ≠ propertyKey t) (first_seen rest)
  end.

(** [t]'s key occurs at least as often as every other key. *)
Definition has_max_count (types : list dataType) (t : dataType) : bool :=
  forallb (λ u, Nat.leb (occurrences (propertyKey u) types)
                        (occurrences (propertyKey t) types)) types.

(** The property [counts] holds for candidate [t] once [types] are counted. *)
Definition tallyEntry (types : list dataType) (t : dataType) : string * Count :=
  (propertyKey t, {| count := occurrences (propertyKey t) types; value := t |}).

(** A candidate whose key is not a name inherited from [Object.prototype]. *)
Definition ordinary (t : dataType) : Prop :=
  propertyKey t ∉ Object_prototype_keys.

(** The candidates [inferTypes] collects for column [k]: one for each row
    that has the column, in row order. *)
Definition columnCandidates `{Externals} (k : string) (items : list jsvalue)
    (strict : bool) : list dataType :=
  datum ← items;
  (λ key, castTypeToString (getValueType (property datum key) strict))
    <$> filter (λ key, key = k) (fst <$> own_properties datum).

(** [candidateTypes[k]] after [types] more candidates are pushed. *)
Definition pushed (before : option (list dataType)) (types : list dataType)
  : option (list dataType) :=
  match types with
  | [] => before
  | _ => Some (default [] before ++ types)
  end.

(** A row [inferTypes] can go through. *)
Definition plainRow (datum : jsvalue) : Prop :=
  datum ≠ Undefined ∧ datum ≠ Null ∧
  Forall (λ key, key ∉ Object_prototype_keys) (fst <$> own_properties datum).

Section ParserFacts.
Context `{Externals}.

Lemma parseCells_lookup (getters : gmap string (jsvalue → result jsvalue))
    (rowv : jsvalue) (k : string) :
  (parseCells getters rowv).1 !! k = (λ g, cellValue (g rowv)) <$> getters !! k ∧
  (parseCells getters rowv).2 !! k = getters !! k ≫= (λ g, cellError (g rowv)).
Proof.
  revert k. unfold parseCells.
  apply (map_fold_weak_ind (λ acc m, ∀ k,
    acc.1 !! k = (λ g, cellValue (g rowv)) <$> m !! k ∧
    acc.2 !! k = m !! k ≫= (λ g, cellError (g rowv)))).
  - intros k. simpl. rewrite !lookup_empty. done.
  - intros i g m acc Hi IH k. unfold parseCell.
    destruct (IH k) as [IH1 IH2].
    destruct (decide (i = k)) as [->|Hne].
    + rewrite lookup_insert_eq. simpl.
      destruct (g rowv) as [v|e]; simpl; rewrite ?lookup_insert_eq; try done.
      split; [done|]. rewrite IH2, Hi. done.
    + rewrite lookup_insert_ne by done.
      destruct (g rowv) as [v|e]; simpl; rewrite ?lookup_insert_ne by done; done.
Qed.

Lemma parsedRow_value (types : gmap string dataType) (rowv : jsvalue) (k : string) :
  (parseCells (propGetters types) rowv).1 !! k
  = (λ d, cellValue (propGetter k d rowv)) <$> types !! k.
Proof.
  destruct (parseCells_lookup (propGetters types) rowv k) as [-> _].
  unfold propGetters. rewrite map_lookup_imap.
  destruct (types !! k); done.
Qed.

Lemma parsedRow_error (types : gmap string dataType) (rowv : jsvalue) (k : string) :
  (parseCells (propGetters types) rowv).2 !! k
  = types !! k ≫= (λ d, cellError (propGetter k d rowv)).
Proof.
  destruct (parseCells_lookup (propGetters types) rowv k) as [_ ->].
  unfold propGetters. rewrite map_lookup_imap.
  destruct (types !! k); done.
Qed.

Lemma parsedRow_dom (types : gmap string dataType) (rowv : jsvalue) :
  dom (parseCells (propGetters types) rowv).1 = dom types.
Proof.
  apply set_eq. intros k. rewrite !elem_of_dom, parsedRow_value.
  rewrite fmap_is_Some. done.
Qed.

Lemma Array_map_from_rowParser (types : gmap string dataType) (items : list jsvalue)
    (i : nat) (s : list RowError) :
  Array_map_from
    (rowParser types (Some (λ error i errors, errors ++ [{| row := i; error := error |}])))
    i items s
  = ((λ rowv, (parseCells (propGetters types) rowv).1) <$> items,
     s ++ rowErrors types i items).
Proof.
  revert i s. induction items as [|rowv rest IH]; intros i s; simpl.
  - by rewrite app_nil_r.
  - unfold rowParser at 1.
    destruct (parseCells (propGetters types) rowv) as [out err] eqn:Hcells. simpl.
    rewrite IH. f_equal.
    rewrite (bool_decide_ext (size err ≠ 0) (err ≠ ∅))
      by apply map_size_non_empty_iff.
    destruct (bool_decide (err ≠ ∅)); [|done].
    by rewrite <- app_assoc.
Qed.

Lemma parseDataset_inv (data : jsvalue) (types : option (gmap string dataType))
    (r : ParserResult) :
  parseDataset data types = Ok r →
  ∃ items, data = Arr items ∧
    match types with
    | Some t => dataTypes r = t
    | None => inferTypes data false = Ok (dataTypes r)
    end ∧
    dataset r = (λ rowv, (parseCells (propGetters (dataTypes r)) rowv).1) <$> items ∧
    errors r = rowErrors (dataTypes r) 0 items.
Proof.
  unfold parseDataset. intros Hr.
  assert (∀ dt, parseRows data dt ≫= (λ parsed,
            Ok {| dataset := parsed.1; dataTypes := dt; errors := parsed.2 |}) = Ok r →
          ∃ items, data = Arr items ∧ dataTypes r = dt ∧
            dataset r = (λ rowv, (parseCells (propGetters dt) rowv).1) <$> items ∧
            errors r = rowErrors dt 0 items) as Hrows.
  { intros dt Hdt. unfold parseRows in Hdt.
    destruct data; simpl in Hdt; try discriminate.
    rewrite Array_map_from_rowParser in Hdt. simpl in Hdt.
    injection Hdt as <-. eexists. simpl. done. }
  destruct types as [t|]; simpl in Hr.
  - destruct (Hrows _ Hr) as (items & -> & Ht & Hd & He).
    exists items. rewrite Ht in *. done.
  - destruct (inferTypes data false) as [dt|e] eqn:Hinf; simpl in Hr; [|discriminate].
    destruct (Hrows _ Hr) as (items & -> & Ht & Hd & He).
    exists items. rewrite Ht in *. done.
Qed.

Lemma assign_other {A : Type} (o : gmap string A) (k : string) (v : A) :
  k ≠ "__proto__" → assign o k v = <[k := v]> o.
Proof. intros Hk. unfold assign. by apply String.eqb_neq in Hk as ->. Qed.

(** On a type map without the key [__proto__], spelling the assignments out
    gives the maps [propGetters] and [parseCells]. *)
Lemma assignedGetters_agree (types : gmap string dataType) :
  "__proto__" ∉ dom types → assignedGetters types = propGetters types.
Proof.
  unfold assignedGetters, propGetters.
  apply (map_fold_weak_ind (λ acc (m : gmap string dataType),
    "__proto__" ∉ dom m → acc = map_imap (λ k d, Some (propGetter k d)) m)).
  - intros _. by rewrite map_imap_empty.
  - intros i d m acc Hi IH Hdom.
    rewrite dom_insert_L, not_elem_of_union, not_elem_of_singleton in Hdom.
    destruct Hdom as [Hne Hdom].
    rewrite assign_other by done. rewrite (IH Hdom).
    symmetry. by apply map_imap_insert_Some.
Qed.

Lemma assignedCells_lookup (getters : gmap string (jsvalue → result jsvalue))
    (rowv : jsvalue) :
  "__proto__" ∉ dom getters →
  ∀ k, (assignedCells getters rowv).1 !! k = (λ g, cellValue (g rowv)) <$> getters !! k ∧
       (assignedCells getters rowv).2 !! k = getters !! k ≫= (λ g, cellError (g rowv)).
Proof.
  unfold assignedCells.
  apply (map_fold_weak_ind (λ acc (m : gmap string (jsvalue → result jsvalue)),
    "__proto__" ∉ dom m → ∀ k,
    acc.1 !! k = (λ g, cellValue (g rowv)) <$> m !! k ∧
    acc.2 !! k = m !! k ≫= (λ g, cellError (g rowv)))).
  - intros _ k. simpl. rewrite !lookup_empty. done.
  - intros i g m acc Hi IH Hdom k.
    rewrite dom_insert_L, not_elem_of_union, not_elem_of_singleton in Hdom.
    destruct Hdom as [Hne Hdom]. destruct (IH Hdom k) as [IH1 IH2].
    unfold assignedCell.
    destruct (decide (i = k)) as [->|Hik].
    + rewrite lookup_insert_eq. simpl.
      destruct (g rowv) as [v|e]; simpl; rewrite !assign_other by done;
        rewrite ?lookup_insert_eq; try done.
      split; [done|]. rewrite IH2, Hi. done.
    + rewrite lookup_insert_ne by done.
      destruct (g rowv) as [v|e]; simpl; rewrite !assign_other by done;
        rewrite ?lookup_insert_ne by done; done.
Qed.

Lemma assign_proto {A : Type} (o : gmap string A) (v : A) :
  assign o "__proto__" v = o.
Proof. done. Qed.

(** In general the assignments build the getters of every column but
    [__proto__]. *)
Lemma assignedGetters_delete (types : gmap string dataType) :
  assignedGetters types = propGetters (delete "__proto__" types).
Proof.
  unfold assignedGetters.
  apply (map_fold_weak_ind (λ acc (m : gmap string dataType),
    acc = propGetters (delete "__proto__" m))).
  - unfold propGetters. by rewrite delete_empty, map_imap_empty.
  - intros i d m acc Hi IH. destruct (decide (i = "__proto__")) as [->|Hne].
    + by rewrite assign_proto, delete_insert_eq.
    + rewrite assign_other, delete_insert_ne by done. rewrite IH.
      unfold propGetters. symmetry. by apply map_imap_insert_Some.
Qed.

Lemma assignedCells_agree (types : gmap string dataType) (rowv : jsvalue) :
  "__proto__" ∉ dom types →
  assignedCells (assignedGetters types) rowv = parseCells (propGetters types) rowv.
Proof.
  intros Hdom. rewrite assignedGetters_agree by done.
  assert ("__proto__" ∉ dom (propGetters types)) as Hdom'.
  { unfold propGetters. rewrite elem_of_dom, map_lookup_imap.
    apply not_elem_of_dom in Hdom. rewrite Hdom. by intros [? ?]. }
  pose proof (assignedCells_lookup (propGetters types) rowv Hdom') as Ha.
  pose proof (parseCells_lookup (propGetters types) rowv) as Hp.
  destruct (assignedCells (propGetters types) rowv) as [out1 err1].
  destruct (parseCells (propGetters types) rowv) as [out2 err2].
  simpl in *. f_equal; apply map_eq; intros k;
    destruct (Ha k) as [Ha1 Ha2]; destruct (Hp k) as [Hp1 Hp2]; congruence.
Qed.

Lemma assignedCells_delete (types : gmap string dataType) (rowv : jsvalue) :
  assignedCells (assignedGetters types) rowv
  = parseCells (propGetters (delete "__proto__" types)) rowv.
Proof.
  assert ("__proto__" ∉ dom (delete "__proto__" types)) as Hdom.
  { rewrite dom_delete_L, not_elem_of_difference, elem_of_singleton. by right. }
  rewrite <- (assignedCells_agree _ _ Hdom).
  by rewrite assignedGetters_delete, (assignedGetters_agree _ Hdom).
Qed.

End ParserFacts.

Section ErrorListFacts.
Context `{Externals}.

Lemma rowErrors_elem (types : gmap string dataType) (items : list jsvalue) :
  ∀ i e, e ∈ rowErrors types i items →
    ∃ j rowv, row e = i + j ∧ items !! j = Some rowv ∧
      error e = (parseCells (propGetters types) rowv).2 ∧ error e ≠ ∅.
Proof.
  induction items as [|rowv rest IH]; intros i e He; simpl in He.
  - by apply elem_of_nil in He.
  - apply elem_of_app in He as [He|He].
    + destruct (bool_decide_reflect ((parseCells (propGetters types) rowv).2 ≠ ∅))
        as [Hne|]; [|by apply elem_of_nil in He].
      apply list_elem_of_singleton in He as ->. simpl.
      exists 0, rowv. split; [lia|done].
    + destruct (IH _ _ He) as (j & rowv' & Hrow & Hj & Herr & Hne).
      exists (S j), rowv'. split; [lia|done].
Qed.

Lemma rowErrors_complete (types : gmap string dataType) (items : list jsvalue) :
  ∀ i j rowv, items !! j = Some rowv →
    (parseCells (propGetters types) rowv).2 ≠ ∅ →
    {| row := i + j; error := (parseCells (propGetters types) rowv).2 |}
      ∈ rowErrors types i items.
Proof.
  induction items as [|rowv0 rest IH]; intros i j rowv Hj Hne; [done|].
  simpl. apply elem_of_app. destruct j as [|j]; simpl in Hj.
  - injection Hj as ->. left.
    rewrite bool_decide_eq_true_2 by done.
    replace (i + 0) with i by lia. apply list_elem_of_singleton. done.
  - right. replace (i + S j) with (S i + j) by lia. by apply IH.
Qed.

Lemma rowErrors_increasing (types : gmap string dataType) (items : list jsvalue) :
  ∀ i a b ea eb,
    rowErrors types i items !! a = Some ea →
    rowErrors types i items !! b = Some eb →
    a < b → row ea < row eb.
Proof.
  induction items as [|rowv rest IH]; intros i a b ea eb Ha Hb Hab; [done|].
  simpl in Ha, Hb.
  destruct (bool_decide ((parseCells (propGetters types) rowv).2 ≠ ∅)); simpl in *.
  - destruct b as [|b]; [lia|]. simpl in Hb.
    destruct a as [|a]; simpl in Ha.
    + injection Ha as <-. simpl.
      apply list_elem_of_lookup_2 in Hb.
      destruct (rowErrors_elem _ _ _ _ Hb) as (j & ? & -> & _). lia.
    + apply (IH (S i) a b); [done..|lia].
  - by apply (IH (S i) a b).
Qed.

(** What [parseDataset] leaves in the cell of column [k] of row [i]. *)
Lemma parseDataset_cell (items : list jsvalue) (types : option (gmap string dataType))
    (r : ParserResult) (i : nat) (rowv : jsvalue) (k : string) (d : dataType) :
  parseDataset (Arr items) types = Ok r →
  items !! i = Some rowv →
  dataTypes r !! k = Some d →
  (∃ out, dataset r !! i = Some out ∧
          out !! k = Some (cellValue (propGetter k d rowv))) ∧
  (∀ e, e ∈ errors r → row e = i → error e !! k = cellError (propGetter k d rowv)) ∧
  (∀ err, propGetter k d rowv = Throw err →
          ∃ e, e ∈ errors r ∧ row e = i ∧ error e !! k = Some err).
Proof.
  intros Hr Hi Hk.
  destruct (parseDataset_inv _ _ _ Hr) as (items' & [= <-] & _ & Hd & He).
  split; [|split].
  - exists (parseCells (propGetters (dataTypes r)) rowv).1. split.
    + rewrite Hd, list_lookup_fmap, Hi. done.
    + rewrite parsedRow_value, Hk. done.
  - intros e Hin Hrow. rewrite He in Hin.
    destruct (rowErrors_elem _ _ _ _ Hin) as (j & rowv' & Hj & Hl & -> & _).
    simpl in Hj. rewrite <- Hj, Hrow, Hi in Hl. injection Hl as <-.
    rewrite parsedRow_error, Hk. done.
  - intros err Herr.
    eexists. split; [|split].
    + rewrite He. apply (rowErrors_complete _ _ 0 i rowv Hi).
      intros Hemp.
      assert ((parseCells (propGetters (dataTypes r)) rowv).2 !! k = Some err) as Hx.
      { rewrite parsedRow_error, Hk. simpl. by rewrite Herr. }
      rewrite Hemp, lookup_empty in Hx. done.
    + done.
    + simpl. rewrite parsedRow_error, Hk. simpl. by rewrite Herr.
Qed.

End ErrorListFacts.

Section Tally.

Lemma occurrences_app (k : string) (l1 l2 : list dataType) :
  occurrences k (l1 ++ l2) = occurrences k l1 + occurrences k l2.
Proof. unfold occurrences. by rewrite filter_app, length_app. Qed.

Lemma occurrences_cons (k : string) (t : dataType) (l : list dataType) :
  occurrences k (t :: l)
  = (if decide (propertyKey t = k) then 1 else 0) + occurrences k l.
Proof.
  unfold occurrences. rewrite filter_cons.
  destruct (decide (propertyKey t = k)); done.
Qed.

Lemma occurrences_zero (k : string) (l : list dataType) :
  k ∉ propertyKey <$> l → occurrences k l = 0.
Proof.
  induction l as [|t l IH]; [done|]. intros Hk.
  rewrite fmap_cons, not_elem_of_cons in Hk. destruct Hk as [Hne Hk].
  rewrite occurrences_cons, decide_False by done. by rewrite IH.
Qed.

Lemma occurrences_pos (k : string) (l : list dataType) :
  k ∈ propertyKey <$> l → 0 < occurrences k l.
Proof.
  induction l as [|t l IH]; intros Hk.
  - by apply elem_of_nil in Hk.
  - rewrite occurrences_cons. rewrite fmap_cons, elem_of_cons in Hk.
    destruct (decide (propertyKey t = k)); [lia|].
    destruct Hk as [->|Hk]; [done|]. specialize (IH Hk). lia.
Qed.

Lemma occurrences_two (k1 k2 : string) (l : list dataType) :
  k1 ≠ k2 → occurrences k1 l + occurrences k2 l ≤ length l.
Proof.
  intros Hne. induction l as [|t l IH]; [done|].
  rewrite !occurrences_cons. simpl.
  destruct (decide (propertyKey t = k1)), (decide (propertyKey t = k2)); subst; try done; lia.
Qed.

Lemma occurrences_elem (k : string) (l : list dataType) :
  0 < occurrences k l → ∃ u, u ∈ l ∧ propertyKey u = k.
Proof.
  intros Hpos. destruct (decide (k ∈ propertyKey <$> l)) as [Hin|Hnin].
  - apply list_elem_of_fmap in Hin as (u & -> & Hu). by exists u.
  - rewrite occurrences_zero in Hpos by done. lia.
Qed.

Lemma first_seen_elem (d : dataType) (l : list dataType) :
  d ∈ first_seen l → d ∈ l.
Proof.
  induction l as [|t l IH]; [done|]. simpl.
  rewrite !elem_of_cons, list_elem_of_filter. intros [->|[_ Hd]]; auto.
Qed.

Lemma first_seen_keys (k : string) (l : list dataType) :
  k ∈ propertyKey <$> l → k ∈ propertyKey <$> first_seen l.
Proof.
  induction l as [|t l IH]; [done|]. simpl.
  rewrite ?fmap_cons, !elem_of_cons. intros [->|Hk]; [by left|].
  destruct (decide (k = propertyKey t)) as [->|Hne]; [by left|]. right.
  apply list_elem_of_fmap in IH as (d & -> & Hd); [|done].
  apply list_elem_of_fmap_2, list_elem_of_filter. done.
Qed.

Lemma NoDup_keys_filter (P : dataType → Prop) `{∀ x, Decision (P x)}
    (l : list dataType) :
  NoDup (propertyKey <$> l) → NoDup (propertyKey <$> filter P l).
Proof.
  induction l as [|t l IH]; [done|].
  rewrite fmap_cons, NoDup_cons. intros [Hnotin Hnd].
  rewrite filter_cons. destruct (decide (P t)); [|by apply IH].
  rewrite fmap_cons, NoDup_cons. split; [|by apply IH].
  intros Hin. apply Hnotin.
  apply list_elem_of_fmap in Hin as (d & -> & Hd).
  apply list_elem_of_filter in Hd as [_ Hd]. by apply list_elem_of_fmap_2.
Qed.

Lemma first_seen_NoDup (l : list dataType) :
  NoDup (propertyKey <$> first_seen l).
Proof.
  induction l as [|t l IH]; simpl; [constructor|].
  rewrite NoDup_cons. split; [|by apply NoDup_keys_filter].
  intros Hin. apply list_elem_of_fmap in Hin as (d & Hd & Hin).
  apply list_elem_of_filter in Hin as [Hne _]. done.
Qed.

Lemma first_seen_snoc (l : list dataType) (c : dataType) :
  first_seen (l ++ [c])
  = if decide (propertyKey c ∈ propertyKey <$> l) then first_seen l
    else first_seen l ++ [c].
Proof.
  induction l as [|t l IH]; [done|].
  simpl. rewrite IH.
  destruct (decide (propertyKey c ∈ propertyKey <$> l)) as [Hin|Hnin].
  - rewrite decide_True by (by right). done.
  - rewrite filter_app, filter_cons, filter_nil.
    destruct (decide (propertyKey c = propertyKey t)) as [Heq|Hne].
    + rewrite decide_False by (intros Hx; by apply Hx).
      rewrite decide_True by (rewrite Heq; by left). by rewrite app_nil_r.
    + rewrite decide_True by done.
      rewrite decide_False; [done|].
      rewrite elem_of_cons. intros [Hx|Hx]; [by apply Hne|by apply Hnin].
Qed.

Lemma assoc_None {A} (k : string) (l : list (string * A)) :
  k ∉ fst <$> l → assoc k l = None.
Proof.
  induction l as [|[k' a] l IH]; [done|]. simpl.
  rewrite not_elem_of_cons. intros [Hne Hk].
  destruct (String.eqb_spec k' k) as [->|_]; [done|]. by apply IH.
Qed.

Lemma assoc_is_Some {A} (k : string) (l : list (string * A)) :
  k ∈ fst <$> l → is_Some (assoc k l).
Proof.
  induction l as [|[k' a] l IH]; simpl.
  - intros Hk. by apply elem_of_nil in Hk.
  - rewrite elem_of_cons. intros Hk.
    destruct (String.eqb_spec k' k) as [->|Hne]; [done|].
    apply IH. destruct Hk as [->|Hk]; done.
Qed.

Lemma assoc_Some_elem {A} (k : string) (l : list (string * A)) (a : A) :
  assoc k l = Some a → (k, a) ∈ l.
Proof.
  induction l as [|[k' a'] l IH]; [done|]. simpl.
  destruct (String.eqb_spec k' k) as [->|_].
  - intros [= ->]. by left.
  - intros Ha. right. by apply IH.
Qed.

Lemma assoc_app_first {A} (k : string) (l1 l2 : list (string * A)) (a : A) :
  k ∉ fst <$> l1 → assoc k (l1 ++ (k, a) :: l2) = Some a.
Proof.
  induction l1 as [|[k' a'] l1 IH]; simpl.
  - intros _. by rewrite String.eqb_refl.
  - rewrite not_elem_of_cons. intros [Hne Hk].
    destruct (String.eqb_spec k' k) as [->|_]; [done|]. by apply IH.
Qed.

Lemma assoc_tally (types l : list dataType) (k : string) (c : Count) :
  assoc k (tallyEntry types <$> l) = Some c →
  count c = occurrences k types ∧ propertyKey (value c) = k ∧ value c ∈ l.
Proof.
  intros Hc. apply assoc_Some_elem, list_elem_of_fmap in Hc as (t & Ht & Hin).
  unfold tallyEntry in Ht. injection Ht as -> ->. done.
Qed.

Lemma tally_keys (types l : list dataType) :
  fst <$> (tallyEntry types <$> l) = propertyKey <$> l.
Proof. rewrite <- list_fmap_compose. done. Qed.

Lemma increment_fresh (k : string) (c : Count) (counts : list (string * Count)) :
  k ∉ fst <$> counts →
  increment k (counts ++ [(k, c)])
  = counts ++ [(k, {| count := S (count c); value := value c |})].
Proof.
  induction counts as [|[k' c'] counts IH]; simpl.
  - intros _. by rewrite String.eqb_refl.
  - rewrite not_elem_of_cons. intros [Hne Hk].
    destruct (String.eqb_spec k' k) as [->|_]; [done|]. by rewrite IH.
Qed.

Lemma increment_cons (k k' : string) (c : Count) (counts : list (string * Count)) :
  increment k ((k', c) :: counts)
  = if String.eqb k' k
    then (k', {| count := S (count c); value := value c |}) :: counts
    else (k', c) :: increment k counts.
Proof. done. Qed.

Lemma tallyEntry_snoc (types : list dataType) (c t : dataType) :
  tallyEntry (types ++ [c]) t
  = (propertyKey t,
     {| count := (if decide (propertyKey c = propertyKey t) then 1 else 0)
                 + occurrences (propertyKey t) types;
        value := t |}).
Proof.
  unfold tallyEntry. rewrite occurrences_app, occurrences_cons.
  replace (occurrences (propertyKey t) []) with 0 by done.
  do 2 f_equal. lia.
Qed.

Lemma tally_other (types l : list dataType) (c : dataType) :
  propertyKey c ∉ propertyKey <$> l →
  tallyEntry (types ++ [c]) <$> l = tallyEntry types <$> l.
Proof.
  intros Hk. apply list_fmap_ext. intros i t Ht.
  rewrite tallyEntry_snoc. rewrite decide_False; [done|].
  intros Heq. apply Hk. rewrite Heq.
  eapply list_elem_of_fmap_2, list_elem_of_lookup_2, Ht.
Qed.

Lemma increment_tally (types l : list dataType) (c : dataType) :
  NoDup (propertyKey <$> l) →
  increment (propertyKey c) (tallyEntry types <$> l)
  = tallyEntry (types ++ [c]) <$> l.
Proof.
  induction l as [|t l IH]; [done|].
  rewrite !fmap_cons, NoDup_cons. intros [Hnotin Hnd].
  rewrite tallyEntry_snoc. unfold tallyEntry at 1. rewrite increment_cons.
  destruct (String.eqb_spec (propertyKey t) (propertyKey c)) as [Heq|Hne].
  - rewrite tally_other by (by rewrite <- Heq).
    rewrite decide_True by done. done.
  - rewrite IH by done. rewrite decide_False by done. done.
Qed.

Lemma countType_tally (types : list dataType) :
  Forall ordinary types →
  fold_left countType types [] = tallyEntry types <$> first_seen types.
Proof.
  induction types as [|c types IH] using rev_ind; [done|].
  rewrite Forall_app, Forall_singleton. intros [Hall Hc].
  rewrite fold_left_app. simpl. rewrite IH by done.
  unfold countType. rewrite first_seen_snoc.
  destruct (decide (propertyKey c ∈ propertyKey <$> types)) as [Hin|Hnin].
  - destruct (assoc (propertyKey c) (tallyEntry types <$> first_seen types)) eqn:Ha.
    + apply increment_tally, first_seen_NoDup.
    + apply first_seen_keys in Hin. rewrite <- (tally_keys types) in Hin.
      apply assoc_is_Some in Hin. rewrite Ha in Hin. by destruct Hin.
  - rewrite assoc_None.
    2:{ rewrite tally_keys. intros Hin. apply Hnin.
        apply list_elem_of_fmap in Hin as (t & -> & Ht).
        by apply list_elem_of_fmap_2, first_seen_elem. }
    rewrite bool_decide_eq_false_2 by done.
    rewrite increment_fresh.
    2:{ rewrite tally_keys. intros Hin. apply Hnin.
        apply list_elem_of_fmap in Hin as (t & -> & Ht).
        by apply list_elem_of_fmap_2, first_seen_elem. }
    rewrite fmap_app. simpl. f_equal.
    + symmetry. apply tally_other. intros Hin. apply Hnin.
      apply list_elem_of_fmap in Hin as (t & -> & Ht).
      by apply list_elem_of_fmap_2, first_seen_elem.
    + rewrite tallyEntry_snoc, decide_True by done.
      rewrite occurrences_zero by done. done.
Qed.

Lemma maxBy_from {A} (iteratee : A → nat) (l p1 p2 : list A) (r : A) :
  Forall (λ y, iteratee y < iteratee r) p1 →
  Forall (λ y, iteratee y ≤ iteratee r) p2 →
  ∃ l1 x l2, p1 ++ r :: p2 ++ l = l1 ++ x :: l2 ∧
    fold_left (λ res x,
                 match res with
                 | None => Some x
                 | Some r => if Nat.ltb (iteratee r) (iteratee x) then Some x else res
                 end) l (Some r) = Some x ∧
    Forall (λ y, iteratee y < iteratee x) l1 ∧
    Forall (λ y, iteratee y ≤ iteratee x) l2.
Proof.
  revert p1 p2 r. induction l as [|y l IH]; intros p1 p2 r H1 H2.
  - exists p1, r, p2. rewrite app_nil_r. done.
  - simpl. destruct (Nat.ltb_spec (iteratee r) (iteratee y)) as [Hlt|Hge].
    + destruct (IH (p1 ++ r :: p2) [] y) as (l1 & x & l2 & Heq & Hres & Hl1 & Hl2).
      * rewrite Forall_app, Forall_cons. split_and!; [|done|].
        -- eapply Forall_impl; [exact H1|]. simpl. intros; lia.
        -- eapply Forall_impl; [exact H2|]. simpl. intros; lia.
      * constructor.
      * exists l1, x, l2. split; [|done].
        rewrite <- Heq. simpl. rewrite <- !app_assoc. done.
    + destruct (IH p1 (p2 ++ [y]) r) as (l1 & x & l2 & Heq & Hres & Hl1 & Hl2).
      * done.
      * rewrite Forall_app, Forall_singleton. done.
      * exists l1, x, l2. split; [|done].
        rewrite <- Heq. rewrite <- !app_assoc. done.
Qed.

Lemma maxBy_first {A} (iteratee : A → nat) (l : list A) :
  l ≠ [] →
  ∃ l1 x l2, l = l1 ++ x :: l2 ∧ maxBy l iteratee = Some x ∧
    Forall (λ y, iteratee y < iteratee x) l1 ∧
    Forall (λ y, iteratee y ≤ iteratee x) l2.
Proof.
  destruct l as [|r l]; [done|]. intros _.
  destruct (maxBy_from iteratee l [] [] r) as (l1 & x & l2 & Heq & Hres & Hl1 & Hl2);
    [constructor..|].
  exists l1, x, l2. done.
Qed.

Lemma find_app_first {A} (P : A → bool) (l1 l2 : list A) (x : A) :
  Forall (λ y, P y = false) l1 → P x = true →
  List.find P (l1 ++ x :: l2) = Some x.
Proof.
  induction l1 as [|y l1 IH]; simpl; intros Hall Hx.
  - by rewrite Hx.
  - apply Forall_cons in Hall as [-> Hall]. by apply IH.
Qed.

Lemma find_Some_first {A} (P : A → bool) (l : list A) (x : A) :
  List.find P l = Some x →
  ∃ l1 l2, l = l1 ++ x :: l2 ∧ P x = true ∧ Forall (λ y, P y = false) l1.
Proof.
  induction l as [|y l IH]; [done|]. simpl.
  destruct (P y) eqn:Hy.
  - intros [= ->]. exists [], l. done.
  - intros Hx. destruct (IH Hx) as (l1 & l2 & -> & Hpx & Hall).
    exists (y :: l1), l2. split_and!; [done..|]. by constructor.
Qed.

Lemma find_filter_out {A} (P : A → bool) (Q : A → Prop) `{∀ x, Decision (Q x)}
    (l : list A) :
  (∀ x, ¬ Q x → P x = false) →
  List.find P (filter Q l) = List.find P l.
Proof.
  intros HQ. induction l as [|y l IH]; [done|].
  rewrite filter_cons. destruct (decide (Q y)) as [Hq|Hq]; simpl.
  - by rewrite IH.
  - by rewrite (HQ y Hq).
Qed.

Lemma find_first_seen (P : dataType → bool) (l : list dataType) :
  (∀ t u, propertyKey t = propertyKey u → P t = P u) →
  List.find P (first_seen l) = List.find P l.
Proof.
  intros Hkey. induction l as [|t l IH]; [done|]. simpl.
  destruct (P t) eqn:Ht; [done|].
  rewrite find_filter_out; [done|].
  intros u Hu. apply dec_stable in Hu. by rewrite (Hkey u t Hu).
Qed.

Lemma has_max_count_key (types : list dataType) (t u : dataType) :
  propertyKey t = propertyKey u → has_max_count types t = has_max_count types u.
Proof. intros Hk. unfold has_max_count. by rewrite Hk. Qed.

Lemma has_max_count_true (types : list dataType) (t : dataType) :
  has_max_count types t = true ↔
  ∀ u, u ∈ types → occurrences (propertyKey u) types ≤ occurrences (propertyKey t) types.
Proof.
  unfold has_max_count. rewrite forallb_forall. split.
  - intros Hall u Hu. apply Nat.leb_le, Hall, list_elem_of_In, Hu.
  - intros Hall u Hu. apply Nat.leb_le, Hall, list_elem_of_In, Hu.
Qed.

(** [mostFrequentType] returns the first candidate whose key occurs most
    often. *)
Lemma mostFrequentType_first_max (types : list dataType) :
  types ≠ [] → Forall ordinary types →
  ∃ w, mostFrequentType types = Ok w ∧
       List.find (has_max_count types) types = Some w.
Proof.
  intros Hne Hord. unfold mostFrequentType. rewrite countType_tally by done.
  rewrite tally_keys.
  set (g := λ t, match assoc t (tallyEntry types <$> first_seen types) with
                 | Some c => count c
                 | None => 0
                 end).
  assert (∀ k, k ∈ propertyKey <$> first_seen types → g k = occurrences k types) as Hg.
  { intros k Hk. unfold g. rewrite <- (tally_keys types) in Hk.
    destruct (assoc_is_Some _ _ Hk) as [c Hc]. rewrite Hc.
    by destruct (assoc_tally _ _ _ _ Hc) as [-> _]. }
  destruct (maxBy_first g (propertyKey <$> first_seen types))
    as (L1 & k & L2 & HL & -> & HL1 & HL2).
  { destruct types; done. }
  apply fmap_app_inv in HL as (F1 & F' & -> & HF' & HF).
  symmetry in HF'. apply fmap_cons_inv in HF' as (w & F2 & -> & -> & ->).
  assert (propertyKey w ∉ propertyKey <$> F1) as Hfresh.
  { intros Hin. rewrite Forall_forall in HL1. specialize (HL1 _ Hin). lia. }
  exists w.
  rewrite HF, fmap_app, fmap_cons. unfold tallyEntry at 2.
  rewrite assoc_app_first by (by rewrite tally_keys). simpl.
  split; [done|].
  rewrite <- (find_first_seen _ types) by apply has_max_count_key.
  assert (∀ t, t ∈ first_seen types → g (propertyKey t) = occurrences (propertyKey t) types)
    as Hgt by (intros t Ht; by apply Hg, list_elem_of_fmap_2).
  assert (w ∈ first_seen types) as Hw
    by (rewrite HF; apply elem_of_app; right; left).
  rewrite HF. rewrite find_app_first; [done| |].
  - apply Forall_forall. intros y Hy.
    apply not_true_is_false. rewrite has_max_count_true. intros Hmax.
    specialize (Hmax w (first_seen_elem _ _ Hw)).
    rewrite Forall_forall in HL1.
    specialize (HL1 (propertyKey y) (list_elem_of_fmap_2 _ _ _ Hy)).
    rewrite (Hgt y), (Hgt w) in HL1;
      [lia|done|rewrite HF; apply elem_of_app; by left].
  - apply has_max_count_true. intros u Hu.
    assert (propertyKey u ∈ propertyKey <$> first_seen types) as Hk
      by (by apply first_seen_keys, list_elem_of_fmap_2).
    rewrite <- (Hg _ Hk), <- (Hgt w Hw).
    rewrite HF, fmap_app, fmap_cons, elem_of_app, elem_of_cons in Hk.
    rewrite Forall_forall in HL1. rewrite Forall_forall in HL2.
    destruct Hk as [Hk|[->|Hk]]; [specialize (HL1 _ Hk); lia|done|by apply HL2].
Qed.

End Tally.

Section Inference.
Context `{Externals}.

Lemma getValueType_cases (value : jsvalue) (strict : bool) :
  getValueType value strict ∈
    [TStr "number"; TStr "boolean"; TStr "date";
     TObj (Some (TStr "date")) (Some "YYYY-MM-DD") None; TStr "string"].
Proof.
  unfold getValueType.
  repeat match goal with |- context [if ?b then _ else _] => destruct b end;
    set_solver.
Qed.

Lemma castTypeToString_getValueType (value : jsvalue) (strict : bool) :
  castTypeToString (getValueType value strict) = getValueType value strict.
Proof.
  pose proof (getValueType_cases value strict) as Hc.
  rewrite !elem_of_cons in Hc.
  destruct Hc as [->|[->|[->|[->|[->|Hc]]]]]; try done.
  by apply elem_of_nil in Hc.
Qed.

Lemma candidate_ordinary (value : jsvalue) (strict : bool) :
  ordinary (castTypeToString (getValueType value strict)).
Proof.
  rewrite castTypeToString_getValueType.
  pose proof (getValueType_cases value strict) as Hc.
  rewrite !elem_of_cons in Hc. unfold ordinary.
  destruct Hc as [->|[->|[->|[->|[->|Hc]]]]];
    [by apply (bool_decide_unpack _); vm_compute..|].
  by apply elem_of_nil in Hc.
Qed.

Lemma columnCandidates_cons (k : string) (datum : jsvalue) (items : list jsvalue)
    (strict : bool) :
  columnCandidates k (datum :: items) strict
  = ((λ key, castTypeToString (getValueType (property datum key) strict))
       <$> filter (λ key, key = k) (fst <$> own_properties datum))
    ++ columnCandidates k items strict.
Proof. done. Qed.

Lemma columnCandidates_ordinary (k : string) (items : list jsvalue) (strict : bool) :
  Forall ordinary (columnCandidates k items strict).
Proof.
  induction items as [|datum items IH]; [constructor|].
  rewrite columnCandidates_cons, Forall_app. split; [|done].
  apply Forall_fmap, Forall_forall. intros key _. apply candidate_ordinary.
Qed.

Lemma columnCandidates_elem (k : string) (items : list jsvalue) (strict : bool)
    (u : dataType) :
  u ∈ columnCandidates k items strict → ∃ value, u = getValueType value strict.
Proof.
  induction items as [|datum items IH]; [by intros ?%elem_of_nil|].
  rewrite columnCandidates_cons, elem_of_app. intros [Hu|Hu]; [|by apply IH].
  apply list_elem_of_fmap in Hu as (key & -> & _).
  eexists. apply castTypeToString_getValueType.
Qed.

(** Among the candidates of a column, the key tells the candidate. *)
Lemma columnCandidates_key_inj (k : string) (items : list jsvalue) (strict : bool)
    (u v : dataType) :
  u ∈ columnCandidates k items strict → v ∈ columnCandidates k items strict →
  propertyKey u = propertyKey v → u = v.
Proof.
  intros [a ->]%columnCandidates_elem [b ->]%columnCandidates_elem.
  pose proof (getValueType_cases a strict) as Ha.
  pose proof (getValueType_cases b strict) as Hb.
  rewrite !elem_of_cons in Ha, Hb.
  destruct Ha as [->|[->|[->|[->|[->|Ha]]]]]; [..|by apply elem_of_nil in Ha];
    destruct Hb as [->|[->|[->|[->|[->|Hb]]]]]; try done;
    by apply elem_of_nil in Hb.
Qed.

Lemma pushed_pushed (o : option (list dataType)) (l1 l2 : list dataType) :
  pushed (pushed o l1) l2 = pushed o (l1 ++ l2).
Proof.
  destruct l1 as [|t l1]; [done|]. destruct l2 as [|u l2].
  - by rewrite app_nil_r.
  - simpl. by rewrite <- app_assoc.
Qed.

Lemma pushCandidate_lookup (strict : bool) (datum : jsvalue)
    (cT cT' : gmap string (list dataType)) (key k : string) :
  pushCandidate strict datum cT key = Ok cT' →
  cT' !! k = pushed (cT !! k)
    ((λ key, castTypeToString (getValueType (property datum key) strict))
       <$> filter (λ key, key = k) [key]).
Proof.
  unfold pushCandidate. rewrite filter_cons, filter_nil.
  destruct (cT !! key) as [types|] eqn:Hkey.
  - intros [= <-]. destruct (decide (key = k)) as [->|Hne].
    + rewrite lookup_insert_eq, Hkey. done.
    + rewrite lookup_insert_ne by done. done.
  - destruct (bool_decide (key ∈ Object_prototype_keys)); [done|].
    intros [= <-]. destruct (decide (key = k)) as [->|Hne].
    + rewrite lookup_insert_eq, Hkey. done.
    + rewrite lookup_insert_ne by done. done.
Qed.

Lemma pushCandidates_lookup (strict : bool) (datum : jsvalue) (keys : list string) :
  ∀ (cT cT' : gmap string (list dataType)) (k : string),
    forEach (pushCandidate strict datum) keys cT = Ok cT' →
    cT' !! k = pushed (cT !! k)
      ((λ key, castTypeToString (getValueType (property datum key) strict))
         <$> filter (λ key, key = k) keys).
Proof.
  induction keys as [|key keys IH]; intros cT cT' k; simpl.
  - intros [= <-]. done.
  - destruct (pushCandidate strict datum cT key) as [cT1|] eqn:Hpush; [|done].
    simpl. intros Hrest. rewrite (IH _ _ k Hrest).
    rewrite (pushCandidate_lookup _ _ _ _ _ k Hpush), pushed_pushed.
    rewrite <- fmap_app, <- filter_app. done.
Qed.

Lemma candidateTypes_from (strict : bool) (items : list jsvalue) :
  ∀ (cT cT' : gmap string (list dataType)) (k : string),
    forEach (λ acc datum,
               keys ← Object_keys datum;
               forEach (pushCandidate strict datum) keys acc) items cT = Ok cT' →
    cT' !! k = pushed (cT !! k) (columnCandidates k items strict).
Proof.
  induction items as [|datum items IH]; intros cT cT' k.
  - intros [= <-]. done.
  - rewrite columnCandidates_cons. simpl.
    destruct (Object_keys datum) as [keys|] eqn:Hkeys; [|done]. simpl.
    destruct (forEach (pushCandidate strict datum) keys cT) as [cT1|] eqn:Hrow; [|done].
    simpl. intros Hrest. rewrite (IH _ _ k Hrest).
    rewrite (pushCandidates_lookup _ _ _ _ _ k Hrow), pushed_pushed.
    assert (keys = fst <$> own_properties datum) as ->; [|done].
    unfold Object_keys in Hkeys. destruct datum; congruence.
Qed.

Lemma candidateTypes_lookup (items : list jsvalue) (strict : bool)
    (cT : gmap string (list dataType)) (k : string) :
  candidateTypes items strict = Ok cT →
  cT !! k = pushed None (columnCandidates k items strict).
Proof.
  intros Hc. rewrite <- (lookup_empty (M := gmap string) k).
  by apply candidateTypes_from.
Qed.

Lemma inferredTypes_fold (cT : gmap string (list dataType)) :
  (∀ k cs, cT !! k = Some cs → cs ≠ [] ∧ Forall ordinary cs) →
  ∃ tm : gmap string dataType, map_fold (λ k types acc,
                    inferredTypes ← acc;
                    type ← mostFrequentType types;
                    Ok (<[k := type]> inferredTypes)) (Ok ∅) cT = Ok tm ∧
        ∀ k, tm !! k = cT !! k ≫= (λ cs, List.find (has_max_count cs) cs).
Proof.
  apply (map_fold_weak_ind (λ acc (m : gmap string (list dataType)),
    (∀ k cs, m !! k = Some cs → cs ≠ [] ∧ Forall ordinary cs) →
    ∃ tm : gmap string dataType, acc = Ok tm ∧
          ∀ k, tm !! k = m !! k ≫= (λ cs, List.find (has_max_count cs) cs))).
  - intros _. exists ∅. split; [done|]. intros k. by rewrite !lookup_empty.
  - intros i cs m acc Hi IH Hok.
    destruct IH as (tm & -> & Htm).
    { intros k cs' Hk. apply (Hok k). rewrite lookup_insert_ne; [done|].
      intros ->. by rewrite Hi in Hk. }
    destruct (Hok i cs) as [Hne Hord]; [by rewrite lookup_insert_eq|].
    destruct (mostFrequentType_first_max cs Hne Hord) as (w & Hw & Hfind).
    exists (<[i := w]> tm). simpl. rewrite Hw. simpl. split; [done|].
    intros k. destruct (decide (i = k)) as [->|Hik].
    + rewrite !lookup_insert_eq. simpl. by rewrite Hfind.
    + rewrite !lookup_insert_ne by done. apply Htm.
Qed.

Lemma pushed_None (types : list dataType) (cs : list dataType) :
  pushed None types = Some cs → types = cs ∧ cs ≠ [].
Proof. destruct types; [done|]. simpl. intros [= <-]. done. Qed.

Lemma inferTypes_of_candidates (items : list jsvalue) (strict : bool)
    (cT : gmap string (list dataType)) :
  candidateTypes items strict = Ok cT →
  ∃ tm, inferTypes (Arr items) strict = Ok tm ∧
        ∀ k, tm !! k = List.find (has_max_count (columnCandidates k items strict))
                                 (columnCandidates k items strict).
Proof.
  intros Hc. destruct (inferredTypes_fold cT) as (tm & Hfold & Htm).
  { intros k cs Hk. rewrite (candidateTypes_lookup _ _ _ k Hc) in Hk.
    apply pushed_None in Hk as [<- Hne]. split; [done|].
    apply columnCandidates_ordinary. }
  exists tm. split.
  - unfold inferTypes. rewrite Hc. exact Hfold.
  - intros k. rewrite Htm, (candidateTypes_lookup _ _ _ k Hc).
    destruct (columnCandidates k items strict); done.
Qed.

Lemma inferTypes_lookup (items : list jsvalue) (strict : bool)
    (tm : gmap string dataType) (k : string) :
  inferTypes (Arr items) strict = Ok tm →
  tm !! k = List.find (has_max_count (columnCandidates k items strict))
                      (columnCandidates k items strict).
Proof.
  intros Hi. destruct (candidateTypes items strict) as [cT|e] eqn:Hc.
  - destruct (inferTypes_of_candidates _ _ _ Hc) as (tm' & Hi' & Htm).
    rewrite Hi in Hi'. injection Hi' as <-. apply Htm.
  - unfold inferTypes in Hi. rewrite Hc in Hi. done.
Qed.

Lemma pushCandidates_total (strict : bool) (datum : jsvalue) (keys : list string) :
  Forall (λ key, key ∉ Object_prototype_keys) keys →
  ∀ cT, ∃ cT', forEach (pushCandidate strict datum) keys cT = Ok cT'.
Proof.
  induction 1 as [|key keys Hkey _ IH]; intros cT; simpl; [by eexists|].
  assert (∃ cT1, pushCandidate strict datum cT key = Ok cT1) as [cT1 ->].
  { unfold pushCandidate.
    destruct (cT !! key); [|rewrite bool_decide_eq_false_2 by done]; by eexists. }
  simpl. apply IH.
Qed.

Lemma candidateTypes_total (items : list jsvalue) (strict : bool) :
  Forall plainRow items → ∃ cT, candidateTypes items strict = Ok cT.
Proof.
  unfold candidateTypes. generalize (∅ : gmap string (list dataType)).
  intros cT Hrows. revert cT.
  induction Hrows as [|datum items (Hu & Hn & Hkeys) _ IH]; intros cT; simpl;
    [by eexists|].
  assert (Object_keys datum = Ok (fst <$> own_properties datum)) as ->
    by (by destruct datum).
  simpl.
  destruct (pushCandidates_total strict datum _ Hkeys cT) as [cT1 ->].
  simpl. apply IH.
Qed.

Lemma inferTypes_total (items : list jsvalue) (strict : bool) :
  Forall plainRow items → ∃ tm, inferTypes (Arr items) strict = Ok tm.
Proof.
  intros Hrows. destruct (candidateTypes_total items strict Hrows) as [cT Hc].
  destruct (inferTypes_of_candidates _ _ _ Hc) as (tm & Htm & _). by exists tm.
Qed.

End Inference.

(** * The claims of the specification *)

#[local] Existing Instance Host.host.

(** C9. For every [data] that is not an array, [inferTypes] returns the
    empty type map and throws nothing. *)
Theorem inferTypes_not_array `{Externals} (data : jsvalue) (strict : bool) :
  isArray data = false → inferTypes data strict = Ok ∅.
Proof. destruct data; done. Qed.

Lemma inferTypes_not_array_witness :
  isArray (Obj [("a", Str "3")]) = false ∧
  inferTypes (Obj [("a", Str "3")]) false = Ok ∅.
Proof.
  split; [reflexivity|].
  apply (inferTypes_not_array (Obj [("a", Str "3")]) false). reflexivity.
Defined.

(** C6. For an array [data], the dataset [parseDataset] returns is as long
    as [data], and its row [i] is the parsed form of the record at index
    [i] of [data]. *)
Theorem parseDataset_length_order `{Externals} (items : list jsvalue)
    (types : option (gmap string dataType)) (r : ParserResult) :
  parseDataset (Arr items) types = Ok r →
  length (dataset r) = length items ∧
  ∀ i rowv, items !! i = Some rowv →
    dataset r !! i = Some (parseCells (propGetters (dataTypes r)) rowv).1.
Proof.
  intros Hr.
  destruct (parseDataset_inv _ _ _ Hr) as (items' & [= <-] & _ & Hd & _).
  rewrite Hd. split; [by rewrite length_fmap|].
  intros i rowv Hi. by rewrite list_lookup_fmap, Hi.
Qed.

Lemma parseDataset_length_order_witness :
  parseDataset (Arr Sample.rows) (Some Sample.types) = Ok Sample.parsed ∧
  (length (dataset Sample.parsed) = length Sample.rows ∧
   ∀ i rowv, Sample.rows !! i = Some rowv →
     dataset Sample.parsed !! i
     = Some (parseCells (propGetters (dataTypes Sample.parsed)) rowv).1).
Proof.
  split; [vm_compute; reflexivity|].
  apply (parseDataset_length_order Sample.rows (Some Sample.types) Sample.parsed).
  vm_compute; reflexivity.
Defined.

(** C7. The claim states what the code aims at, and the code breaks it
    for one key.  [rowParser] collects the getters and the cells by the
    assignments [propGetters[k] = ...] and [out[k] = ...], and for
    [k = "__proto__"] the assignment creates no own property.  So when
    the type map has a key [__proto__], the row the parser returns, which
    is [(assignedCells (assignedGetters types) row).1], has the other
    keys of the type map and lacks that one: its key set is not the key
    set of the type map. *)
Theorem proto_column_is_lost `{Externals} (types : gmap string dataType)
    (d : dataType) (rowv : jsvalue) :
  types !! "__proto__" = Some d →
  dom (assignedCells (assignedGetters types) rowv).1 = dom types ∖ {["__proto__"]} ∧
  dom (assignedCells (assignedGetters types) rowv).1 ≠ dom types.
Proof.
  intros Hd. rewrite assignedCells_delete, parsedRow_dom, dom_delete_L.
  split; [done|]. apply elem_of_dom_2 in Hd. set_solver.
Qed.

Lemma proto_column_is_lost_witness :
  Sample.protoTypes !! "__proto__" = Some (TFun JsNumber) ∧
  (dom (assignedCells (assignedGetters Sample.protoTypes) (Obj [("x", Num 1%float)])).1
   = dom Sample.protoTypes ∖ {["__proto__"]} ∧
   dom (assignedCells (assignedGetters Sample.protoTypes) (Obj [("x", Num 1%float)])).1
   ≠ dom Sample.protoTypes).
Proof.
  split; [reflexivity|].
  apply (proto_column_is_lost Sample.protoTypes (TFun JsNumber)). reflexivity.
Defined.

(** The record [{x: 1}] under the type map [{["__proto__"]: Number}]:
    [propGetters] has no key, and the parsed row is [{}]. *)
Example proto_row_is_empty :
  dom Sample.protoTypes = {["__proto__"]} ∧
  assignedGetters Sample.protoTypes = ∅ ∧
  assignedCells (assignedGetters Sample.protoTypes) (Obj [("x", Num 1%float)]) = (∅, ∅).
Proof.
  split_and!.
  - apply dom_singleton_L.
  - vm_compute; reflexivity.
  - vm_compute; reflexivity.
Qed.

(** C8. The error list has exactly one entry for each row with a failing
    cell: the entry carries the index of the row and maps each failing
    column of that row to the error its getter threw; a row without a
    failing cell has no entry, and the entries come in increasing row
    order. *)
Theorem errors_one_entry_per_failing_row `{Externals} (items : list jsvalue)
    (types : option (gmap string dataType)) (r : ParserResult) :
  parseDataset (Arr items) types = Ok r →
  (∀ e, e ∈ errors r →
     ∃ rowv, items !! row e = Some rowv ∧
       (∃ k d err, dataTypes r !! k = Some d ∧ propGetter k d rowv = Throw err) ∧
       ∀ k, error e !! k = dataTypes r !! k ≫= (λ d, cellError (propGetter k d rowv))) ∧
  (∀ i rowv k d err,
     items !! i = Some rowv → dataTypes r !! k = Some d →
     propGetter k d rowv = Throw err → ∃ e, e ∈ errors r ∧ row e = i) ∧
  (∀ a b ea eb,
     errors r !! a = Some ea → errors r !! b = Some eb → a < b → row ea < row eb) ∧
  (∀ e1 e2, e1 ∈ errors r → e2 ∈ errors r → row e1 = row e2 → e1 = e2).
Proof.
  intros Hr.
  destruct (parseDataset_inv _ _ _ Hr) as (items' & [= <-] & _ & _ & He).
  assert (∀ a b ea eb,
            errors r !! a = Some ea → errors r !! b = Some eb → a < b →
            row ea < row eb) as Hinc.
  { rewrite He. apply rowErrors_increasing. }
  split_and!.
  - intros e Hin. rewrite He in Hin.
    destruct (rowErrors_elem _ _ _ _ Hin) as (j & rowv & Hj & Hl & Herr & Hne).
    simpl in Hj. subst j. exists rowv. split_and!; [done| |].
    + apply map_choose in Hne as (k & err & Hk).
      rewrite Herr, parsedRow_error in Hk.
      destruct (dataTypes r !! k) as [d|] eqn:Hd; [|done]. simpl in Hk.
      exists k, d, err. split; [done|].
      destruct (propGetter k d rowv); simpl in Hk; congruence.
    + intros k. by rewrite Herr, parsedRow_error.
  - intros i rowv k d err Hi Hk Herr.
    destruct (parseDataset_cell _ _ _ _ _ _ _ Hr Hi Hk) as (_ & _ & Hex).
    destruct (Hex err Herr) as (e & Hin & Hrow & _). by exists e.
  - exact Hinc.
  - intros e1 e2 H1 H2 Hrow.
    apply list_elem_of_lookup_1 in H1 as [a Ha].
    apply list_elem_of_lookup_1 in H2 as [b Hb].
    destruct (Nat.lt_trichotomy a b) as [Hab|[->|Hab]].
    + specialize (Hinc _ _ _ _ Ha Hb Hab). lia.
    + congruence.
    + specialize (Hinc _ _ _ _ Hb Ha Hab). lia.
Qed.

Lemma errors_one_entry_per_failing_row_witness :
  parseDataset (Arr Sample.rows) (Some Sample.types) = Ok Sample.parsed ∧
  ((∀ e, e ∈ errors Sample.parsed →
      ∃ rowv, Sample.rows !! row e = Some rowv ∧
        (∃ k d err, dataTypes Sample.parsed !! k = Some d ∧
                    propGetter k d rowv = Throw err) ∧
        ∀ k, error e !! k
             = dataTypes Sample.parsed !! k ≫= (λ d, cellError (propGetter k d rowv))) ∧
   (∀ i rowv k d err,
      Sample.rows !! i = Some rowv → dataTypes Sample.parsed !! k = Some d →
      propGetter k d rowv = Throw err → ∃ e, e ∈ errors Sample.parsed ∧ row e = i) ∧
   (∀ a b ea eb,
      errors Sample.parsed !! a = Some ea → errors Sample.parsed !! b = Some eb →
      a < b → row ea < row eb) ∧
   (∀ e1 e2, e1 ∈ errors Sample.parsed → e2 ∈ errors Sample.parsed →
      row e1 = row e2 → e1 = e2)).
Proof.
  split; [vm_compute; reflexivity|].
  apply (errors_one_entry_per_failing_row Sample.rows (Some Sample.types) Sample.parsed).
  vm_compute; reflexivity.
Defined.

(** C1. The claim states what the code aims at, and the code breaks it
    for [Date].  When the value read at a column's path is [undefined] or
    [null] (the record omits the column), the null guard of [basicGetter]
    gives [null]; in a column that resolves to [Date] and has no
    formatter, [checkType], which accepts Date instances only, rejects
    that [null]: the cell is [null], and a Field Error is recorded for
    it. *)
Theorem missing_date_cell_is_an_error `{Externals} (items : list jsvalue)
    (types : option (gmap string dataType)) (r : ParserResult)
    (i : nat) (rowv : jsvalue) (k : string) (d : dataType) :
  parseDataset (Arr items) types = Ok r →
  items !! i = Some rowv →
  dataTypes r !! k = Some d →
  get rowv k = Undefined ∨ get rowv k = Null →
  getFormatter d = None →
  getType d = Some JsDate →
  (∃ out, dataset r !! i = Some out ∧ out !! k = Some Null) ∧
  ∃ e, e ∈ errors r ∧ row e = i ∧
       error e !! k = Some (RAWError "invalid type date for value null").
Proof.
  intros Hr Hi Hk Hget Hfmt Htype.
  destruct (parseDataset_cell _ _ _ _ _ _ _ Hr Hi Hk) as ((out & Hd & Hv) & _ & Hrec).
  assert (propGetter k d rowv = Throw (RAWError "invalid type date for value null"))
    as Hcell.
  { unfold propGetter. rewrite Hfmt, Htype. simpl.
    by destruct Hget as [-> | ->]. }
  split.
  - exists out. split; [done|]. by rewrite Hv, Hcell.
  - by apply Hrec.
Qed.

Lemma missing_date_cell_is_an_error_witness :
  parseDataset (Arr Sample.undated) (Some Sample.dateTypes) = Ok Sample.undatedParsed ∧
  Sample.undated !! 0 = Some (Obj []) ∧
  dataTypes Sample.undatedParsed !! "d" = Some (TFun JsDate) ∧
  (get (Obj []) "d" = Undefined ∨ get (Obj []) "d" = Null) ∧
  getFormatter (TFun JsDate) = None ∧
  getType (TFun JsDate) = Some JsDate ∧
  ((∃ out, dataset Sample.undatedParsed !! 0 = Some out ∧ out !! "d" = Some Null) ∧
   ∃ e, e ∈ errors Sample.undatedParsed ∧ row e = 0 ∧
        error e !! "d" = Some (RAWError "invalid type date for value null")).
Proof.
  split; [vm_compute; reflexivity|].
  split; [reflexivity|]. split; [vm_compute; reflexivity|].
  split; [left; reflexivity|]. split; [reflexivity|]. split; [reflexivity|].
  apply (missing_date_cell_is_an_error Sample.undated (Some Sample.dateTypes)
           Sample.undatedParsed 0 (Obj []) "d" (TFun JsDate)).
  - vm_compute; reflexivity.
  - reflexivity.
  - vm_compute; reflexivity.
  - left; reflexivity.
  - reflexivity.
  - reflexivity.
Defined.

(** The same record [{}] under the other three constructors: a [null]
    cell, and nothing recorded. *)
Example missing_cell_of_other_types :
  parseDataset (Arr Sample.undated) (Some {["d" := TFun JsNumber]})
  = Ok {| dataset := [{["d" := Null]}];
          dataTypes := {["d" := TFun JsNumber]}; errors := [] |} ∧
  parseDataset (Arr Sample.undated) (Some {["d" := TFun JsString]})
  = Ok {| dataset := [{["d" := Null]}];
          dataTypes := {["d" := TFun JsString]}; errors := [] |} ∧
  parseDataset (Arr Sample.undated) (Some {["d" := TFun JsBoolean]})
  = Ok {| dataset := [{["d" := Null]}];
          dataTypes := {["d" := TFun JsBoolean]}; errors := [] |}.
Proof. split_and!; vm_compute; reflexivity. Qed.

(** C10. For a column that resolves to [Boolean] and has no formatter, a
    raw value other than [null] and [undefined] is parsed to its
    truthiness and no Field Error is recorded; every non-empty string, the
    string ["false"] among them, is parsed to [true]. *)
Theorem boolean_cell_truthiness `{Externals} (items : list jsvalue)
    (types : option (gmap string dataType)) (r : ParserResult)
    (i : nat) (rowv : jsvalue) (k : string) (d : dataType) :
  parseDataset (Arr items) types = Ok r →
  items !! i = Some rowv →
  dataTypes r !! k = Some d →
  getFormatter d = None →
  getType d = Some JsBoolean →
  get rowv k ≠ Null →
  get rowv k ≠ Undefined →
  (∃ out, dataset r !! i = Some out ∧
          out !! k = Some (Bool (ToBoolean (get rowv k)))) ∧
  (∀ e, e ∈ errors r → row e = i → error e !! k = None) ∧
  (∀ s, get rowv k = Str s → s ≠ "" → ToBoolean (get rowv k) = true) ∧
  ToBoolean (Str "false") = true.
Proof.
  intros Hr Hi Hk Hfmt Htype Hnull Hundef.
  destruct (parseDataset_cell _ _ _ _ _ _ _ Hr Hi Hk) as (Hout & Herr & _).
  assert (propGetter k d rowv = Ok (Bool (ToBoolean (get rowv k)))) as Hcell.
  { unfold propGetter. rewrite Hfmt, Htype. simpl.
    destruct (get rowv k); done. }
  rewrite Hcell in Hout, Herr. split_and!; [done..| |done].
  intros s -> Hs. simpl. by apply negb_true_iff, String.eqb_neq.
Qed.

Lemma boolean_cell_truthiness_witness :
  parseDataset (Arr Sample.flags) (Some Sample.flagTypes) = Ok Sample.flagsParsed ∧
  Sample.flags !! 0 = Some (Obj [("b", Str "false")]) ∧
  dataTypes Sample.flagsParsed !! "b" = Some (TFun JsBoolean) ∧
  getFormatter (TFun JsBoolean) = None ∧
  getType (TFun JsBoolean) = Some JsBoolean ∧
  get (Obj [("b", Str "false")]) "b" ≠ Null ∧
  get (Obj [("b", Str "false")]) "b" ≠ Undefined ∧
  ((∃ out, dataset Sample.flagsParsed !! 0 = Some out ∧
           out !! "b" = Some (Bool (ToBoolean (get (Obj [("b", Str "false")]) "b")))) ∧
   (∀ e, e ∈ errors Sample.flagsParsed → row e = 0 → error e !! "b" = None) ∧
   (∀ s, get (Obj [("b", Str "false")]) "b" = Str s → s ≠ "" →
         ToBoolean (get (Obj [("b", Str "false")]) "b") = true) ∧
   ToBoolean (Str "false") = true).
Proof.
  split; [vm_compute; reflexivity|].
  split; [reflexivity|]. split; [vm_compute; reflexivity|].
  split; [reflexivity|]. split; [reflexivity|].
  split; [vm_compute; discriminate|]. split; [vm_compute; discriminate|].
  apply (boolean_cell_truthiness Sample.flags (Some Sample.flagTypes)
           Sample.flagsParsed 0 (Obj [("b", Str "false")]) "b" (TFun JsBoolean)).
  - vm_compute; reflexivity.
  - reflexivity.
  - vm_compute; reflexivity.
  - reflexivity.
  - reflexivity.
  - vm_compute; discriminate.
  - vm_compute; discriminate.
Defined.




(** C3. The type inferred for a column is a candidate whose key has the
    highest occurrence count among the column's candidates; a key that
    occurs on a strict majority of them is therefore the one selected, and
    the selected key tells the inferred type.  The candidates of a column
    are one per row that has the column, in row order. *)
Theorem inferTypes_majority `{Externals} (items : list jsvalue) (strict : bool)
    (candidates : gmap string (list dataType)) (k : string) (cs : list dataType) :
  candidateTypes items strict = Ok candidates →
  candidates !! k = Some cs →
  ∃ tm w, inferTypes (Arr items) strict = Ok tm ∧ tm !! k = Some w ∧ w ∈ cs ∧
    (∀ u, u ∈ cs → occurrences (propertyKey u) cs ≤ occurrences (propertyKey w) cs) ∧
    (∀ key, length cs < 2 * occurrences key cs → propertyKey w = key) ∧
    (∀ u, u ∈ cs → propertyKey u = propertyKey w → u = w) ∧
    cs = columnCandidates k items strict.
Proof.
  intros Hc Hk.
  destruct (inferTypes_of_candidates _ _ _ Hc) as (tm & Hinf & Htm).
  rewrite (candidateTypes_lookup _ _ _ k Hc) in Hk.
  apply pushed_None in Hk as [Hcs Hne]. specialize (Htm k). rewrite Hcs in Htm.
  destruct (mostFrequentType_first_max cs Hne) as (w & _ & Hfind).
  { rewrite <- Hcs. apply columnCandidates_ordinary. }
  exists tm, w. rewrite Htm. split_and!; [done|done| | | | |done].
  - apply find_some in Hfind as [Hin _]. by apply list_elem_of_In.
  - apply find_some in Hfind as [_ Hmax]. by apply has_max_count_true.
  - intros key Hmaj.
    apply find_some in Hfind as [_ Hmax]. rewrite has_max_count_true in Hmax.
    destruct (decide (propertyKey w = key)) as [|Hdiff]; [done|]. exfalso.
    destruct (occurrences_elem key cs) as (u & Hu & Hkey); [lia|].
    specialize (Hmax u Hu). rewrite Hkey in Hmax.
    pose proof (occurrences_two _ _ cs Hdiff). lia.
  - intros u Hu Hkey. apply find_some in Hfind as [Hin _].
    apply list_elem_of_In in Hin. rewrite <- Hcs in Hu, Hin.
    by apply (columnCandidates_key_inj k items strict).
Qed.

Lemma inferTypes_majority_witness :
  candidateTypes Sample.votes false = Ok Sample.voteCandidates ∧
  Sample.voteCandidates !! "a" = Some [TStr "number"; TStr "number"; TStr "string"] ∧
  ∃ tm w, inferTypes (Arr Sample.votes) false = Ok tm ∧ tm !! "a" = Some w ∧
    w ∈ [TStr "number"; TStr "number"; TStr "string"] ∧
    (∀ u, u ∈ [TStr "number"; TStr "number"; TStr "string"] →
       occurrences (propertyKey u) [TStr "number"; TStr "number"; TStr "string"]
       ≤ occurrences (propertyKey w) [TStr "number"; TStr "number"; TStr "string"]) ∧
    (∀ key, length [TStr "number"; TStr "number"; TStr "string"]
            < 2 * occurrences key [TStr "number"; TStr "number"; TStr "string"] →
       propertyKey w = key) ∧
    (∀ u, u ∈ [TStr "number"; TStr "number"; TStr "string"] →
       propertyKey u = propertyKey w → u = w) ∧
    [TStr "number"; TStr "number"; TStr "string"] = columnCandidates "a" Sample.votes false.
Proof.
  split; [vm_compute; reflexivity|]. split; [vm_compute; reflexivity|].
  apply (inferTypes_majority Sample.votes false Sample.voteCandidates "a").
  - vm_compute; reflexivity.
  - vm_compute; reflexivity.
Defined.

(** C5. When several keys of a column have the highest occurrence count,
    the inferred type is the candidate met first, in row order, among
    those whose key has that count; the result is a function of the
    input. *)
Theorem inferTypes_tie_break `{Externals} (items : list jsvalue) (strict : bool)
    (candidates : gmap string (list dataType)) (k : string) (cs : list dataType)
    (i : nat) (t : dataType) :
  candidateTypes items strict = Ok candidates →
  candidates !! k = Some cs →
  cs !! i = Some t →
  (∀ u, u ∈ cs → occurrences (propertyKey u) cs ≤ occurrences (propertyKey t) cs) →
  (∀ j u, cs !! j = Some u →
     occurrences (propertyKey u) cs = occurrences (propertyKey t) cs → i ≤ j) →
  ∃ tm, inferTypes (Arr items) strict = Ok tm ∧ tm !! k = Some t ∧
    ∀ again, inferTypes (Arr items) strict = again → again = Ok tm.
Proof.
  intros Hc Hk Hi Hmax Hfirst.
  destruct (inferTypes_of_candidates _ _ _ Hc) as (tm & Hinf & Htm).
  exists tm. split; [done|]. split; [|by intros again <-].
  rewrite (candidateTypes_lookup _ _ _ k Hc) in Hk.
  apply pushed_None in Hk as [Hcs Hne]. rewrite Htm, Hcs.
  destruct (mostFrequentType_first_max cs Hne) as (w & _ & Hfind).
  { rewrite <- Hcs. apply columnCandidates_ordinary. }
  rewrite Hfind. f_equal.
  apply find_Some_first in Hfind as (l1 & l2 & Hl & Hw & Hl1).
  assert (cs !! length l1 = Some w) as Hlw
    by (rewrite Hl; apply list_lookup_middle; done).
  rewrite has_max_count_true in Hw.
  assert (length l1 ≤ i) as Hge.
  { destruct (decide (length l1 ≤ i)) as [|Hlt]; [done|]. exfalso.
    assert (l1 !! i = Some t) as Hl1i.
    { rewrite Hl, lookup_app_l in Hi by lia. done. }
    rewrite Forall_forall in Hl1.
    specialize (Hl1 t (list_elem_of_lookup_2 _ _ _ Hl1i)).
    apply not_true_iff_false in Hl1. apply Hl1, has_max_count_true, Hmax. }
  assert (i ≤ length l1) as Hle.
  { apply (Hfirst _ w Hlw). apply Nat.le_antisymm.
    - apply Hmax, (list_elem_of_lookup_2 _ _ _ Hlw).
    - apply Hw, (list_elem_of_lookup_2 _ _ _ Hi). }
  assert (i = length l1) as -> by lia. congruence.
Qed.

Lemma inferTypes_tie_break_witness :
  candidateTypes Sample.tie false = Ok Sample.tieCandidates ∧
  Sample.tieCandidates !! "a" = Some [TStr "string"; TStr "number"] ∧
  [TStr "string"; TStr "number"] !! 0 = Some (TStr "string") ∧
  (∀ u, u ∈ [TStr "string"; TStr "number"] →
     occurrences (propertyKey u) [TStr "string"; TStr "number"]
     ≤ occurrences (propertyKey (TStr "string")) [TStr "string"; TStr "number"]) ∧
  (∀ j u, [TStr "string"; TStr "number"] !! j = Some u →
     occurrences (propertyKey u) [TStr "string"; TStr "number"]
     = occurrences (propertyKey (TStr "string")) [TStr "string"; TStr "number"] →
     0 ≤ j) ∧
  ∃ tm, inferTypes (Arr Sample.tie) false = Ok tm ∧ tm !! "a" = Some (TStr "string") ∧
    ∀ again, inferTypes (Arr Sample.tie) false = again → again = Ok tm.
Proof.
  assert (∀ u, u ∈ [TStr "string"; TStr "number"] →
     occurrences (propertyKey u) [TStr "string"; TStr "number"]
     ≤ occurrences (propertyKey (TStr "string")) [TStr "string"; TStr "number"])
    as Hmax.
  { intros u Hu. rewrite !elem_of_cons in Hu.
    destruct Hu as [->|[->|Hu]]; [vm_compute; lia..|by apply elem_of_nil in Hu]. }
  split; [vm_compute; reflexivity|]. split; [vm_compute; reflexivity|].
  split; [reflexivity|]. split; [exact Hmax|]. split; [intros; lia|].
  apply (inferTypes_tie_break Sample.tie false Sample.tieCandidates "a"
           [TStr "string"; TStr "number"] 0 (TStr "string")).
  - vm_compute; reflexivity.
  - vm_compute; reflexivity.
  - reflexivity.
  - exact Hmax.
  - intros; lia.
Defined.

(** C4, as stated, fails: two configured dates with different format
    strings are counted under one and the same key, so that the first of
    them wins against a majority of the other. *)
Lemma configured_dates_share_one_key :
  propertyKey (castTypeToString Sample.isoDate)
  = propertyKey (castTypeToString Sample.dmyDate) ∧
  mostFrequentType [Sample.isoDate; Sample.dmyDate; Sample.dmyDate]
  = Ok Sample.isoDate.
Proof. split; vm_compute; reflexivity. Qed.

(** C4, amended.  [castTypeToString] leaves every candidate of
    [getValueType] as it is: a primitive label is a string and its own key
    in the tally; a configured date stays a descriptor object, and every
    descriptor object is counted under the key ["[object Object]"],
    whatever its format string.  The inferred type is the first candidate
    of the column counted under the winning key; as [getValueType] knows
    one format only, the candidates of a column that share a key are
    equal. *)
Theorem candidate_keys `{Externals} (items : list jsvalue) (strict : bool) (k : string) :
  (∀ value, castTypeToString (getValueType value strict) = getValueType value strict) ∧
  (∀ name, castTypeToString (TStr name) = TStr name ∧ propertyKey (TStr name) = name) ∧
  (∀ type dateFormat decode,
     castTypeToString (TObj type dateFormat decode) = TObj type dateFormat decode ∧
     propertyKey (TObj type dateFormat decode) = "[object Object]") ∧
  (∀ candidates cs,
     candidateTypes items strict = Ok candidates → candidates !! k = Some cs →
     ∃ tm w l1 l2, inferTypes (Arr items) strict = Ok tm ∧ tm !! k = Some w ∧
       cs = l1 ++ w :: l2 ∧ Forall (λ u, propertyKey u ≠ propertyKey w) l1 ∧
       ∀ u v, u ∈ cs → v ∈ cs → propertyKey u = propertyKey v → u = v).
Proof.
  split_and!; [intros value; apply castTypeToString_getValueType|done..|].
  intros candidates cs Hc Hk.
  destruct (inferTypes_of_candidates _ _ _ Hc) as (tm & Hinf & Htm).
  rewrite (candidateTypes_lookup _ _ _ k Hc) in Hk.
  apply pushed_None in Hk as [Hcs Hne]. specialize (Htm k). rewrite Hcs in Htm.
  destruct (mostFrequentType_first_max cs Hne) as (w & _ & Hfind).
  { rewrite <- Hcs. apply columnCandidates_ordinary. }
  apply find_Some_first in Hfind as (l1 & l2 & Hl & Hmax & Hl1).
  exists tm, w, l1, l2. split_and!.
  - done.
  - rewrite Htm, Hl. rewrite Hl in Hmax, Hl1. by apply find_app_first.
  - done.
  - eapply Forall_impl; [exact Hl1|]. simpl. intros u Hu Hkey.
    rewrite (has_max_count_key _ u w Hkey) in Hu. congruence.
  - rewrite <- Hcs. apply columnCandidates_key_inj.
Qed.

(** * Further properties of the module *)

Section CellFacts.
Context `{Externals}.

(** A getter returns only what [checkType] lets through. *)
Lemma propGetter_checked (k : string) (d : dataType) (rowv v : jsvalue) :
  propGetter k d rowv = Ok v → checkType v (getType d) = Ok ().
Proof.
  unfold propGetter.
  destruct (match getFormatter d with
            | Some f => f (get rowv k)
            | None => Ok (get rowv k)
            end) as [fv|]; simpl; [|done].
  destruct (basicGetter fv _) as [out|]; simpl; [|done].
  destruct (checkType out (getType d)) as [[]|] eqn:Hcheck; simpl; [|done].
  by intros [= <-].
Qed.

Lemma propGetter_plain (k : string) (d : dataType) (rowv : jsvalue) :
  getFormatter d = None →
  propGetter k d rowv
  = out ← basicGetter (get rowv k) (getType d);
    _ ← checkType out (getType d);
    Ok out.
Proof. intros Hfmt. unfold propGetter. by rewrite Hfmt. Qed.

Lemma propGetter_formatted (k : string) (d : dataType) (rowv : jsvalue)
    (f : jsvalue → result jsvalue) :
  getFormatter d = Some f →
  propGetter k d rowv
  = formattedValue ← f (get rowv k);
    out ← basicGetter formattedValue (Some identity);
    _ ← checkType out (getType d);
    Ok out.
Proof. intros Hfmt. unfold propGetter. by rewrite Hfmt. Qed.

Lemma parseCells_empty (rowv : jsvalue) :
  parseCells (propGetters ∅) rowv = (∅, ∅).
Proof.
  unfold propGetters. rewrite map_imap_empty. unfold parseCells.
  by rewrite map_fold_empty.
Qed.

Lemma rowErrors_empty_types (items : list jsvalue) (i : nat) :
  rowErrors ∅ i items = [].
Proof.
  revert i. induction items as [|rowv rest IH]; intros i; [done|].
  simpl. rewrite parseCells_empty. simpl.
  rewrite bool_decide_eq_false_2 by (intros Hne; by apply Hne). apply IH.
Qed.

Lemma parseDataset_given (items : list jsvalue) (t : gmap string dataType) :
  parseDataset (Arr items) (Some t)
  = Ok {| dataset := (λ rowv, (parseCells (propGetters t) rowv).1) <$> items;
          dataTypes := t;
          errors := rowErrors t 0 items |}.
Proof.
  unfold parseDataset, parseRows. simpl.
  by rewrite Array_map_from_rowParser.
Qed.

End CellFacts.

(** [Number(v)] and [String(v)] throw a TypeError on an object whose own
    [toString] is not a function; the parser records it like any other
    failure of the cell. *)
Example throwing_conversion_is_recorded :
  parseDataset (Arr [Obj [("n", Obj [("toString", Num 1%float)])]])
               (Some {["n" := TFun JsNumber]})
  = Ok {| dataset := [{["n" := Null]}];
          dataTypes := {["n" := TFun JsNumber]};
          errors := [{| row := 0; error := {["n" := TypeError]} |}] |} ∧
  parseDataset (Arr [Obj [("n", Obj [("toString", Num 1%float)])]])
               (Some {["n" := TFun JsString]})
  = Ok {| dataset := [{["n" := Null]}];
          dataTypes := {["n" := TFun JsString]};
          errors := [{| row := 0; error := {["n" := TypeError]} |}] |}.
Proof. split; vm_compute; reflexivity. Qed.

(** X1. Whatever the type map, given or left out, [parseDataset] throws a
    TypeError when [data] is not an array. *)
Theorem parseDataset_not_array `{Externals} (data : jsvalue)
    (types : option (gmap string dataType)) :
  isArray data = false → parseDataset data types = Throw TypeError.
Proof.
  intros Hdata. unfold parseDataset.
  destruct types as [t|]; destruct data; done.
Qed.

Lemma parseDataset_not_array_witness :
  isArray (Str "n,5") = false ∧
  parseDataset (Str "n,5") (Some Sample.types) = Throw TypeError.
Proof.
  split; [reflexivity|].
  apply (parseDataset_not_array (Str "n,5") (Some Sample.types)). reflexivity.
Defined.

(** X2. With the empty type map every parsed row is the empty object and
    the error list is empty, whatever the records hold. *)
Theorem parseDataset_empty_types `{Externals} (items : list jsvalue) :
  parseDataset (Arr items) (Some ∅)
  = Ok {| dataset := replicate (length items) ∅; dataTypes := ∅; errors := [] |}.
Proof.
  rewrite parseDataset_given, rowErrors_empty_types. do 2 f_equal.
  induction items as [|rowv rest IH]; [done|].
  rewrite fmap_cons, parseCells_empty. simpl. by rewrite IH.
Qed.


(** X4. In a column that resolves to [Number] and has no formatter, a raw
    value other than [null] and [undefined] is converted by [Number()].
    If the result is NaN the cell is [null] and a RAWError naming it is
    recorded; otherwise the cell holds the number and nothing is recorded.
    If the conversion itself throws (an object with an own [toString]
    that is not a function), the cell is [null] and what was thrown is
    recorded. *)
Theorem number_cell `{Externals} (items : list jsvalue)
    (types : option (gmap string dataType)) (r : ParserResult)
    (i : nat) (rowv : jsvalue) (k : string) (d : dataType) :
  parseDataset (Arr items) types = Ok r →
  items !! i = Some rowv →
  dataTypes r !! k = Some d →
  getFormatter d = None →
  getType d = Some JsNumber →
  get rowv k ≠ Null →
  get rowv k ≠ Undefined →
  ∃ out, dataset r !! i = Some out ∧
    match ToNumber (get rowv k) with
    | Ok x =>
        if is_nan x
        then out !! k = Some Null ∧
             ∃ e, e ∈ errors r ∧ row e = i ∧
                  error e !! k
                  = Some (RAWError ("invalid type number for value "
                                    +:+ NumberToString x))
        else out !! k = Some (Num x) ∧
             ∀ e, e ∈ errors r → row e = i → error e !! k = None
    | Throw err =>
        out !! k = Some Null ∧
        ∃ e, e ∈ errors r ∧ row e = i ∧ error e !! k = Some err
    end.
Proof.
  intros Hr Hi Hk Hfmt Htype Hnull Hundef.
  destruct (parseDataset_cell _ _ _ _ _ _ _ Hr Hi Hk) as ((out & Hout & Hv) & Herr & Hrec).
  exists out. split; [done|].
  assert (propGetter k d rowv
          = x ← ToNumber (get rowv k);
            _ ← checkType (Num x) (Some JsNumber);
            Ok (Num x)) as Hcell.
  { rewrite propGetter_plain, Htype by done.
    destruct (get rowv k) eqn:Hraw; try done;
      unfold basicGetter, call; by destruct (ToNumber _). }
  destruct (ToNumber (get rowv k)) as [x|err]; simpl in Hcell.
  - unfold checkType, isNaN in Hcell. simpl in Hcell.
    destruct (is_nan x); simpl in Hcell.
    + rewrite Hcell in Hv. split; [done|]. by apply Hrec.
    + rewrite Hcell in Hv, Herr. done.
  - rewrite Hcell in Hv. split; [done|]. by apply Hrec.
Qed.

Lemma number_cell_witness :
  parseDataset (Arr Sample.rows) (Some Sample.types) = Ok Sample.parsed ∧
  Sample.rows !! 1 = Some (Obj [("n", Str "bad")]) ∧
  dataTypes Sample.parsed !! "n" = Some (TFun JsNumber) ∧
  getFormatter (TFun JsNumber) = None ∧
  getType (TFun JsNumber) = Some JsNumber ∧
  get (Obj [("n", Str "bad")]) "n" ≠ Null ∧
  get (Obj [("n", Str "bad")]) "n" ≠ Undefined ∧
  ∃ out, dataset Sample.parsed !! 1 = Some out ∧
    match ToNumber (get (Obj [("n", Str "bad")]) "n") with
    | Ok x =>
        if is_nan x
        then out !! "n" = Some Null ∧
             ∃ e, e ∈ errors Sample.parsed ∧ row e = 1 ∧
                  error e !! "n"
                  = Some (RAWError ("invalid type number for value "
                                    +:+ NumberToString x))
        else out !! "n" = Some (Num x) ∧
             ∀ e, e ∈ errors Sample.parsed → row e = 1 → error e !! "n" = None
    | Throw err =>
        out !! "n" = Some Null ∧
        ∃ e, e ∈ errors Sample.parsed ∧ row e = 1 ∧ error e !! "n" = Some err
    end.
Proof.
  split; [vm_compute; reflexivity|].
  split; [reflexivity|]. split; [vm_compute; reflexivity|].
  split; [reflexivity|]. split; [reflexivity|].
  split; [vm_compute; discriminate|]. split; [vm_compute; discriminate|].
  apply (number_cell Sample.rows (Some Sample.types) Sample.parsed 1
           (Obj [("n", Str "bad")]) "n" (TFun JsNumber)).
  - vm_compute; reflexivity.
  - reflexivity.
  - vm_compute; reflexivity.
  - reflexivity.
  - reflexivity.
  - vm_compute; discriminate.
  - vm_compute; discriminate.
Defined.

(** X5. Whatever the formatter, a cell of a column that resolves to
    [Number] holds a value for which [isNaN] returns false, and a cell of
    a column that resolves to [Date] holds [null] or a valid Date. *)
Theorem typed_cells_are_valid `{Externals} (data : jsvalue)
    (types : option (gmap string dataType)) (r : ParserResult)
    (i : nat) (out : gmap string jsvalue) (k : string) (d : dataType) :
  parseDataset data types = Ok r →
  dataset r !! i = Some out →
  dataTypes r !! k = Some d →
  ∃ v, out !! k = Some v ∧
    (getType d = Some JsNumber → isNaN v = Ok false) ∧
    (getType d = Some JsDate → v = Null ∨ ∃ t, v = DateObj t ∧ isValid t = true).
Proof.
  intros Hr Hout Hk.
  destruct (parseDataset_inv _ _ _ Hr) as (items & -> & _ & Hd & _).
  rewrite Hd, list_lookup_fmap in Hout.
  destruct (items !! i) as [rowv|] eqn:Hi; [|done]. injection Hout as <-.
  rewrite parsedRow_value, Hk. simpl.
  destruct (propGetter k d rowv) as [v|e] eqn:Hcell; simpl.
  - exists v. split; [done|]. apply propGetter_checked in Hcell.
    split; intros Htype; rewrite Htype in Hcell; simpl in Hcell.
    + destruct (isNaN v) as [[]|]; simpl in Hcell; [|done|done].
      by destruct (ToString v).
    + assert (∀ w (msg : string → exn),
                (ToString w ≫= (λ s, @Throw unit (msg s)) : result unit) ≠ Ok ())
        as Hthrow by (intros w msg; by destruct (ToString w)).
      destruct v; try (by apply Hthrow in Hcell).
      right. eexists. split; [done|].
      destruct (isValid t); [done|]. by apply Hthrow in Hcell.
  - exists Null. split; [done|]. split; [done|]. by left.
Qed.

Lemma typed_cells_are_valid_witness :
  parseDataset (Arr Sample.rows) (Some Sample.types) = Ok Sample.parsed ∧
  dataset Sample.parsed !! 1 = Some {["n" := Null]} ∧
  dataTypes Sample.parsed !! "n" = Some (TFun JsNumber) ∧
  ∃ v, ({["n" := Null]} : gmap string jsvalue) !! "n" = Some v ∧
    (getType (TFun JsNumber) = Some JsNumber → isNaN v = Ok false) ∧
    (getType (TFun JsNumber) = Some JsDate →
     v = Null ∨ ∃ t, v = DateObj t ∧ isValid t = true).
Proof.
  split; [vm_compute; reflexivity|].
  split; [reflexivity|]. split; [vm_compute; reflexivity|].
  apply (typed_cells_are_valid (Arr Sample.rows) (Some Sample.types) Sample.parsed 1
           {["n" := Null]} "n" (TFun JsNumber)).
  - vm_compute; reflexivity.
  - reflexivity.
  - vm_compute; reflexivity.
Defined.


(** X6. In a column that resolves to [Date] and has no formatter every
    cell fails: [Date(value)] is a string, not a Date instance, and a
    missing value is [null]; the cell is [null] and a RAWError is recorded
    for it, whatever the record holds. *)
Theorem date_without_format_fails `{Externals} (items : list jsvalue)
    (types : option (gmap string dataType)) (r : ParserResult)
    (i : nat) (rowv : jsvalue) (k : string) (d : dataType) :
  parseDataset (Arr items) types = Ok r →
  items !! i = Some rowv →
  dataTypes r !! k = Some d →
  getFormatter d = None →
  getType d = Some JsDate →
  (∃ out, dataset r !! i = Some out ∧ out !! k = Some Null) ∧
  ∃ e, e ∈ errors r ∧ row e = i ∧
    error e !! k
    = Some (RAWError ("invalid type date for value "
                      +:+ match get rowv k with
                          | Null | Undefined => "null"
                          | _ => Date_call
                          end)).
Proof.
  intros Hr Hi Hk Hfmt Htype.
  destruct (parseDataset_cell _ _ _ _ _ _ _ Hr Hi Hk) as (Hout & _ & Hrec).
  assert (propGetter k d rowv
          = Throw (RAWError ("invalid type date for value "
                             +:+ match get rowv k with
                                 | Null | Undefined => "null"
                                 | _ => Date_call
                                 end))) as Hcell.
  { rewrite propGetter_plain, Htype by done. by destruct (get rowv k). }
  rewrite Hcell in Hout. split; [done|]. by apply Hrec.
Qed.

Lemma date_without_format_fails_witness :
  parseDataset (Arr Sample.undated) (Some Sample.dateTypes) = Ok Sample.undatedParsed ∧
  Sample.undated !! 0 = Some (Obj []) ∧
  dataTypes Sample.undatedParsed !! "d" = Some (TFun JsDate) ∧
  getFormatter (TFun JsDate) = None ∧
  getType (TFun JsDate) = Some JsDate ∧
  ((∃ out, dataset Sample.undatedParsed !! 0 = Some out ∧ out !! "d" = Some Null) ∧
   ∃ e, e ∈ errors Sample.undatedParsed ∧ row e = 0 ∧
     error e !! "d"
     = Some (RAWError ("invalid type date for value "
                       +:+ match get (Obj []) "d" with
                           | Null | Undefined => "null"
                           | _ => Date_call
                           end))).
Proof.
  split; [vm_compute; reflexivity|].
  split; [reflexivity|]. split; [vm_compute; reflexivity|].
  split; [reflexivity|]. split; [reflexivity|].
  apply (date_without_format_fails Sample.undated (Some Sample.dateTypes)
           Sample.undatedParsed 0 (Obj []) "d" (TFun JsDate)).
  - vm_compute; reflexivity.
  - reflexivity.
  - vm_compute; reflexivity.
  - reflexivity.
  - reflexivity.
Defined.

(** X7. In a column whose descriptor is a plain object without [decode]
    that resolves to [Date] and has a [dateFormat], the raw value, missing
    or not, goes through dayjs with that format: a valid result is the
    cell's Date and nothing is recorded; otherwise the cell is [null] and
    a RAWError is recorded. *)
Theorem formatted_date_cell `{Externals} (items : list jsvalue)
    (types : option (gmap string dataType)) (r : ParserResult)
    (i : nat) (rowv : jsvalue) (k : string)
    (type : option dataType) (fmt : string) :
  parseDataset (Arr items) types = Ok r →
  items !! i = Some rowv →
  dataTypes r !! k = Some (TObj type (Some fmt) None) →
  getType (TObj type (Some fmt) None) = Some JsDate →
  ∃ out, dataset r !! i = Some out ∧
    if isValid (dayjs (get rowv k) fmt)
    then out !! k = Some (DateObj (dayjs (get rowv k) fmt)) ∧
         ∀ e, e ∈ errors r → row e = i → error e !! k = None
    else out !! k = Some Null ∧
         ∃ e, e ∈ errors r ∧ row e = i ∧
              error e !! k
              = Some (RAWError ("invalid type date for value "
                                +:+ DateToString (dayjs (get rowv k) fmt))).
Proof.
  intros Hr Hi Hk Htype.
  destruct (parseDataset_cell _ _ _ _ _ _ _ Hr Hi Hk) as ((out & Hout & Hv) & Herr & Hrec).
  exists out. split; [done|].
  assert (propGetter k (TObj type (Some fmt) None) rowv
          = _ ← checkType (DateObj (dayjs (get rowv k) fmt)) (Some JsDate);
            Ok (DateObj (dayjs (get rowv k) fmt))) as Hcell.
  { rewrite (propGetter_formatted _ _ _ (λ value, Ok (DateObj (dayjs value fmt)))).
    - by rewrite Htype.
    - unfold getFormatter. by rewrite Htype. }
  unfold checkType in Hcell.
  destruct (isValid (dayjs (get rowv k) fmt)); simpl in Hcell.
  - rewrite Hcell in Hv, Herr. done.
  - rewrite Hcell in Hv. split; [done|]. by apply Hrec.
Qed.

Lemma formatted_date_cell_witness :
  parseDataset (Arr Sample.dated) (Some Sample.formattedDateTypes) = Ok Sample.datedParsed ∧
  Sample.dated !! 0 = Some (Obj [("d", Str "2020-01-01")]) ∧
  dataTypes Sample.datedParsed !! "d"
  = Some (TObj (Some (TFun JsDate)) (Some "YYYY-MM-DD") None) ∧
  getType (TObj (Some (TFun JsDate)) (Some "YYYY-MM-DD") None) = Some JsDate ∧
  ∃ out, dataset Sample.datedParsed !! 0 = Some out ∧
    if isValid (dayjs (get (Obj [("d", Str "2020-01-01")]) "d") "YYYY-MM-DD")
    then out !! "d"
         = Some (DateObj (dayjs (get (Obj [("d", Str "2020-01-01")]) "d") "YYYY-MM-DD")) ∧
         ∀ e, e ∈ errors Sample.datedParsed → row e = 0 → error e !! "d" = None
    else out !! "d" = Some Null ∧
         ∃ e, e ∈ errors Sample.datedParsed ∧ row e = 0 ∧
              error e !! "d"
              = Some (RAWError ("invalid type date for value "
                                +:+ DateToString
                                      (dayjs (get (Obj [("d", Str "2020-01-01")]) "d")
                                             "YYYY-MM-DD"))).
Proof.
  split; [vm_compute; reflexivity|].
  split; [reflexivity|]. split; [vm_compute; reflexivity|].
  split; [reflexivity|].
  apply (formatted_date_cell Sample.dated (Some Sample.formattedDateTypes)
           Sample.datedParsed 0 (Obj [("d", Str "2020-01-01")]) "d"
           (Some (TFun JsDate)) "YYYY-MM-DD").
  - vm_compute; reflexivity.
  - reflexivity.
  - vm_compute; reflexivity.
  - reflexivity.
Defined.

(** X8. A [decode] function takes precedence over [dateFormat] and gets
    the raw value, missing or not.  In a column that resolves neither to
    [Number] nor to [Date], the cell holds what [decode] returns ([null]
    for [null] and [undefined]) and nothing is recorded; if [decode]
    throws, the cell is [null] and what it threw is recorded. *)
Theorem decoded_cell `{Externals} (items : list jsvalue)
    (types : option (gmap string dataType)) (r : ParserResult)
    (i : nat) (rowv : jsvalue) (k : string)
    (type : option dataType) (dateFormat : option string)
    (decode : jsvalue → result jsvalue) :
  parseDataset (Arr items) types = Ok r →
  items !! i = Some rowv →
  dataTypes r !! k = Some (TObj type dateFormat (Some decode)) →
  getType (TObj type dateFormat (Some decode)) ≠ Some JsNumber →
  getType (TObj type dateFormat (Some decode)) ≠ Some JsDate →
  ∃ out, dataset r !! i = Some out ∧
    match decode (get rowv k) with
    | Ok v =>
        out !! k = Some (match v with Undefined => Null | _ => v end) ∧
        ∀ e, e ∈ errors r → row e = i → error e !! k = None
    | Throw err =>
        out !! k = Some Null ∧
        ∃ e, e ∈ errors r ∧ row e = i ∧ error e !! k = Some err
    end.
Proof.
  intros Hr Hi Hk Hnum Hdate.
  destruct (parseDataset_cell _ _ _ _ _ _ _ Hr Hi Hk) as ((out & Hout & Hv) & Herr & Hrec).
  exists out. split; [done|].
  rewrite (propGetter_formatted _ _ _ decode) in Hv, Herr, Hrec by done.
  destruct (decode (get rowv k)) as [v|err]; simpl in *.
  - assert (∀ w, checkType w (getType (TObj type dateFormat (Some decode))) = Ok ())
      as Hcheck.
    { intros w. unfold checkType.
      destruct (getType (TObj type dateFormat (Some decode))) as [[]|]; done. }
    assert (basicGetter v (Some identity)
            = Ok (match v with Undefined => Null | _ => v end)) as Hbasic
      by (by destruct v).
    rewrite Hbasic in Hv, Herr. simpl in Hv, Herr.
    rewrite Hcheck in Hv, Herr. done.
  - split; [done|]. by apply Hrec.
Qed.

Lemma decoded_cell_witness :
  parseDataset (Arr Sample.undated) (Some Sample.decodedTypes) = Ok Sample.decodedParsed ∧
  Sample.undated !! 0 = Some (Obj []) ∧
  dataTypes Sample.decodedParsed !! "d"
  = Some (TObj None None (Some Sample.orNotAvailable)) ∧
  getType (TObj None None (Some Sample.orNotAvailable)) ≠ Some JsNumber ∧
  getType (TObj None None (Some Sample.orNotAvailable)) ≠ Some JsDate ∧
  ∃ out, dataset Sample.decodedParsed !! 0 = Some out ∧
    match Sample.orNotAvailable (get (Obj []) "d") with
    | Ok v =>
        out !! "d" = Some (match v with Undefined => Null | _ => v end) ∧
        ∀ e, e ∈ errors Sample.decodedParsed → row e = 0 → error e !! "d" = None
    | Throw err =>
        out !! "d" = Some Null ∧
        ∃ e, e ∈ errors Sample.decodedParsed ∧ row e = 0 ∧ error e !! "d" = Some err
    end.
Proof.
  split; [vm_compute; reflexivity|].
  split; [reflexivity|]. split; [vm_compute; reflexivity|].
  split; [vm_compute; discriminate|]. split; [vm_compute; discriminate|].
  apply (decoded_cell Sample.undated (Some Sample.decodedTypes)
           Sample.decodedParsed 0 (Obj []) "d" None None Sample.orNotAvailable).
  - vm_compute; reflexivity.
  - reflexivity.
  - vm_compute; reflexivity.
  - vm_compute; discriminate.
  - vm_compute; discriminate.
Defined.

(** X9. In a column that resolves to [String] and has no formatter, the
    cell is [null] and nothing is recorded when the value read at the
    column's path is [null] or [undefined]; otherwise the cell holds the
    value converted by [String()] and nothing is recorded, unless the
    conversion throws (an object with an own [toString] that is not a
    function): then the cell is [null] and what was thrown is recorded. *)
Theorem string_cell `{Externals} (items : list jsvalue)
    (types : option (gmap string dataType)) (r : ParserResult)
    (i : nat) (rowv : jsvalue) (k : string) (d : dataType) :
  parseDataset (Arr items) types = Ok r →
  items !! i = Some rowv →
  dataTypes r !! k = Some d →
  getFormatter d = None →
  getType d = Some JsString →
  ∃ out, dataset r !! i = Some out ∧
    match get rowv k with
    | Null | Undefined =>
        out !! k = Some Null ∧
        ∀ e, e ∈ errors r → row e = i → error e !! k = None
    | v =>
        match ToString v with
        | Ok s =>
            out !! k = Some (Str s) ∧
            ∀ e, e ∈ errors r → row e = i → error e !! k = None
        | Throw err =>
            out !! k = Some Null ∧
            ∃ e, e ∈ errors r ∧ row e = i ∧ error e !! k = Some err
        end
    end.
Proof.
  intros Hr Hi Hk Hfmt Htype.
  destruct (parseDataset_cell _ _ _ _ _ _ _ Hr Hi Hk) as ((out & Hout & Hv) & Herr & Hrec).
  exists out. split; [done|].
  assert (propGetter k d rowv
          = match get rowv k with
            | Null | Undefined => Ok Null
            | v => s ← ToString v; Ok (Str s)
            end) as Hcell.
  { rewrite propGetter_plain, Htype by done.
    destruct (get rowv k) eqn:Hraw; try done;
      unfold basicGetter, call; by destruct (ToString _). }
  rewrite Hcell in Hv, Herr, Hrec.
  destruct (get rowv k); try done;
    (destruct (ToString _) as [s|err]; simpl in *; [done|]; split; [done|]; by apply Hrec).
Qed.

Lemma string_cell_witness :
  parseDataset (Arr Sample.truths) (Some Sample.labelTypes) = Ok Sample.truthsParsed ∧
  Sample.truths !! 0 = Some (Obj [("b", Bool true)]) ∧
  dataTypes Sample.truthsParsed !! "b" = Some (TFun JsString) ∧
  getFormatter (TFun JsString) = None ∧
  getType (TFun JsString) = Some JsString ∧
  ∃ out, dataset Sample.truthsParsed !! 0 = Some out ∧
    match get (Obj [("b", Bool true)]) "b" with
    | Null | Undefined =>
        out !! "b" = Some Null ∧
        ∀ e, e ∈ errors Sample.truthsParsed → row e = 0 → error e !! "b" = None
    | v =>
        match ToString v with
        | Ok s =>
            out !! "b" = Some (Str s) ∧
            ∀ e, e ∈ errors Sample.truthsParsed → row e = 0 → error e !! "b" = None
        | Throw err =>
            out !! "b" = Some Null ∧
            ∃ e, e ∈ errors Sample.truthsParsed ∧ row e = 0 ∧ error e !! "b" = Some err
        end
    end.
Proof.
  split; [vm_compute; reflexivity|].
  split; [reflexivity|]. split; [vm_compute; reflexivity|].
  split; [reflexivity|]. split; [reflexivity|].
  apply (string_cell Sample.truths (Some Sample.labelTypes) Sample.truthsParsed 0
           (Obj [("b", Bool true)]) "b" (TFun JsString)).
  - vm_compute; reflexivity.
  - reflexivity.
  - vm_compute; reflexivity.
  - reflexivity.
  - reflexivity.
Defined.

(** X10. The error list is empty exactly when the getter of every column
    returns on every record. *)
Theorem errors_empty_iff `{Externals} (items : list jsvalue)
    (types : option (gmap string dataType)) (r : ParserResult) :
  parseDataset (Arr items) types = Ok r →
  errors r = [] ↔
  ∀ i rowv k d, items !! i = Some rowv → dataTypes r !! k = Some d →
    ∃ v, propGetter k d rowv = Ok v.
Proof.
  intros Hr. split.
  - intros Hnil i rowv k d Hi Hk.
    destruct (propGetter k d rowv) as [v|err] eqn:Hcell; [by exists v|].
    destruct (parseDataset_cell _ _ _ _ _ _ _ Hr Hi Hk) as (_ & _ & Hrec).
    destruct (Hrec err Hcell) as (e & Hin & _).
    rewrite Hnil in Hin. by apply elem_of_nil in Hin.
  - intros Hall. destruct (errors r) as [|e rest] eqn:He; [done|]. exfalso.
    destruct (parseDataset_inv _ _ _ Hr) as (items' & [= <-] & _ & _ & Herrs).
    assert (e ∈ rowErrors (dataTypes r) 0 items) as Hin
      by (rewrite <- Herrs, He; left).
    destruct (rowErrors_elem _ _ _ _ Hin) as (j & rowv & _ & Hj & Herr & Hne).
    apply map_choose in Hne as (k & err & Hk).
    rewrite Herr, parsedRow_error in Hk.
    destruct (dataTypes r !! k) as [d|] eqn:Hd; [|done]. simpl in Hk.
    destruct (Hall j rowv k d Hj Hd) as [v Hv]. by rewrite Hv in Hk.
Qed.

Lemma errors_empty_iff_witness :
  parseDataset (Arr Sample.sparse) (Some Sample.sparseTypes) = Ok Sample.sparseParsed ∧
  (errors Sample.sparseParsed = [] ↔
   ∀ i rowv k d, Sample.sparse !! i = Some rowv →
     dataTypes Sample.sparseParsed !! k = Some d →
     ∃ v, propGetter k d rowv = Ok v).
Proof.
  split; [vm_compute; reflexivity|].
  apply (errors_empty_iff Sample.sparse (Some Sample.sparseTypes) Sample.sparseParsed).
  vm_compute; reflexivity.
Defined.

(** X19. When the value read at a column's path is [null] or [undefined]
    and the column's descriptor has no formatter, the parsed row holds
    [null] for that column; if moreover the descriptor does not resolve
    to [Date], no Field Error is recorded for that cell. *)
Theorem missing_value_is_null `{Externals} (items : list jsvalue)
    (types : option (gmap string dataType)) (r : ParserResult)
    (i : nat) (rowv : jsvalue) (k : string) (d : dataType) :
  parseDataset (Arr items) types = Ok r →
  items !! i = Some rowv →
  dataTypes r !! k = Some d →
  get rowv k = Undefined ∨ get rowv k = Null →
  getFormatter d = None →
  (∃ out, dataset r !! i = Some out ∧ out !! k = Some Null) ∧
  (getType d ≠ Some JsDate →
   ∀ e, e ∈ errors r → row e = i → error e !! k = None).
Proof.
  intros Hr Hi Hk Hget Hfmt.
  destruct (parseDataset_cell _ _ _ _ _ _ _ Hr Hi Hk) as (Hout & Herr & _).
  assert (basicGetter (get rowv k) (getType d) = Ok Null) as Hbasic
    by (by destruct Hget as [-> | ->]).
  split.
  - destruct Hout as (out & Hd & Hv). exists out. split; [done|].
    rewrite Hv. f_equal. unfold propGetter. rewrite Hfmt. simpl.
    rewrite Hbasic. simpl. by destruct (checkType Null (getType d)).
  - intros Hdate e Hin Hrow. rewrite (Herr e Hin Hrow).
    unfold propGetter. rewrite Hfmt. simpl. rewrite Hbasic. simpl.
    destruct (getType d) as [[]|]; done.
Qed.

Lemma missing_value_is_null_witness :
  parseDataset (Arr Sample.sparse) (Some Sample.sparseTypes) = Ok Sample.sparseParsed ∧
  Sample.sparse !! 0 = Some (Obj [("x", Num 1%float)]) ∧
  dataTypes Sample.sparseParsed !! "y" = Some (TFun JsString) ∧
  (get (Obj [("x", Num 1%float)]) "y" = Undefined ∨
   get (Obj [("x", Num 1%float)]) "y" = Null) ∧
  getFormatter (TFun JsString) = None ∧
  ((∃ out, dataset Sample.sparseParsed !! 0 = Some out ∧ out !! "y" = Some Null) ∧
   (getType (TFun JsString) ≠ Some JsDate →
    ∀ e, e ∈ errors Sample.sparseParsed → row e = 0 → error e !! "y" = None)).
Proof.
  split; [vm_compute; reflexivity|].
  split; [reflexivity|]. split; [vm_compute; reflexivity|].
  split; [left; reflexivity|]. split; [reflexivity|].
  apply (missing_value_is_null Sample.sparse (Some Sample.sparseTypes)
           Sample.sparseParsed 0 (Obj [("x", Num 1%float)]) "y" (TFun JsString)).
  - vm_compute; reflexivity.
  - reflexivity.
  - vm_compute; reflexivity.
  - left; reflexivity.
  - reflexivity.
Defined.

(** X20. When the type map of the result has no key named [__proto__],
    every parsed row, built by plain assignments, has exactly the keys of
    that type map, whatever keys the raw record had, and under each key
    either the value its getter returned or [null]. *)
Theorem parsed_row_keys `{Externals} (data : jsvalue)
    (types : option (gmap string dataType)) (r : ParserResult)
    (i : nat) (out : gmap string jsvalue) :
  parseDataset data types = Ok r →
  dataset r !! i = Some out →
  "__proto__" ∉ dom (dataTypes r) →
  dom out = dom (dataTypes r) ∧
  ∃ items rowv, data = Arr items ∧ items !! i = Some rowv ∧
    out = (assignedCells (assignedGetters (dataTypes r)) rowv).1 ∧
    ∀ k d, dataTypes r !! k = Some d →
      (∃ v, propGetter k d rowv = Ok v ∧ out !! k = Some v) ∨
      (∃ e, propGetter k d rowv = Throw e ∧ out !! k = Some Null).
Proof.
  intros Hr Hout Hproto.
  destruct (parseDataset_inv _ _ _ Hr) as (items & -> & _ & Hd & _).
  rewrite Hd, list_lookup_fmap in Hout.
  destruct (items !! i) as [rowv|] eqn:Hi; [|done].
  injection Hout as <-. split; [apply parsedRow_dom|].
  exists items, rowv. split_and!; [done..| |].
  - by rewrite assignedCells_agree.
  - intros k d Hk. rewrite parsedRow_value, Hk. simpl.
    destruct (propGetter k d rowv) as [v|e]; [left|right]; eauto.
Qed.

Lemma parsed_row_keys_witness :
  parseDataset (Arr Sample.rows) (Some Sample.types) = Ok Sample.parsed ∧
  dataset Sample.parsed !! 1 = Some {["n" := Null]} ∧
  ("__proto__" ∉ dom (dataTypes Sample.parsed)) ∧
  (dom ({["n" := Null]} : gmap string jsvalue) = dom (dataTypes Sample.parsed) ∧
   ∃ items rowv, Arr Sample.rows = Arr items ∧ items !! 1 = Some rowv ∧
     {["n" := Null]} = (assignedCells (assignedGetters (dataTypes Sample.parsed)) rowv).1 ∧
     ∀ k d, dataTypes Sample.parsed !! k = Some d →
       (∃ v, propGetter k d rowv = Ok v ∧
             ({["n" := Null]} : gmap string jsvalue) !! k = Some v) ∨
       (∃ e, propGetter k d rowv = Throw e ∧
             ({["n" := Null]} : gmap string jsvalue) !! k = Some Null)).
Proof.
  assert ("__proto__" ∉ dom (dataTypes Sample.parsed)) as Hproto.
  { apply not_elem_of_dom. vm_compute; reflexivity. }
  split; [vm_compute; reflexivity|]. split; [reflexivity|]. split; [exact Hproto|].
  apply (parsed_row_keys (Arr Sample.rows) (Some Sample.types) Sample.parsed 1).
  - vm_compute; reflexivity.
  - reflexivity.
  - exact Hproto.
Defined.

Section InferenceFacts.
Context `{Externals}.

Lemma filter_key_absent (k : string) (keys : list string) :
  k ∉ keys → filter (λ key, key = k) keys = [].
Proof.
  induction keys as [|key keys IH]; [done|].
  rewrite not_elem_of_cons. intros [Hne Hk].
  rewrite filter_cons, decide_False by done. by apply IH.
Qed.

Lemma columnCandidates_nil_iff (k : string) (items : list jsvalue) (strict : bool) :
  columnCandidates k items strict ≠ [] ↔
  ∃ datum, datum ∈ items ∧ k ∈ fst <$> own_properties datum.
Proof.
  induction items as [|datum items IH].
  - split; [done|]. intros (datum & Hin & _). by apply elem_of_nil in Hin.
  - rewrite columnCandidates_cons. split.
    + intros Hne.
      destruct (decide (k ∈ fst <$> own_properties datum)) as [Hk|Hk].
      * exists datum. split; [left|done].
      * assert (filter (λ key, key = k) (fst <$> own_properties datum) = []) as Hnil.
        { by apply filter_key_absent. }
        rewrite Hnil in Hne. simpl in Hne.
        apply IH in Hne as (datum' & Hin & Hk'). exists datum'. split; [by right|done].
    + intros (datum' & Hin & Hk) Hnil.
      apply app_eq_nil in Hnil as [Hhere Hrest].
      apply elem_of_cons in Hin as [->|Hin].
      * apply fmap_nil_inv in Hhere.
        assert (k ∈ filter (λ key, key = k) (fst <$> own_properties datum)) as Hin
          by (by apply list_elem_of_filter).
        rewrite Hhere in Hin. by apply elem_of_nil in Hin.
      * apply IH; [|done]. by exists datum'.
Qed.

Lemma inferTypes_Some (items : list jsvalue) (strict : bool)
    (tm : gmap string dataType) (k : string) :
  inferTypes (Arr items) strict = Ok tm →
  is_Some (tm !! k) ↔ columnCandidates k items strict ≠ [].
Proof.
  intros Hinf. rewrite (inferTypes_lookup _ _ _ k Hinf). split.
  - intros [w Hw] Hnil. by rewrite Hnil in Hw.
  - intros Hne.
    destruct (mostFrequentType_first_max _ Hne (columnCandidates_ordinary _ _ _))
      as (w & _ & ->). done.
Qed.

Lemma inferTypes_elem (items : list jsvalue) (strict : bool)
    (tm : gmap string dataType) (k : string) (w : dataType) :
  inferTypes (Arr items) strict = Ok tm → tm !! k = Some w →
  w ∈ columnCandidates k items strict.
Proof.
  intros Hinf Hw. rewrite (inferTypes_lookup _ _ _ k Hinf) in Hw.
  apply find_some in Hw as [Hin _]. by apply list_elem_of_In.
Qed.

Lemma columnCandidates_source (k : string) (items : list jsvalue) (strict : bool)
    (u : dataType) :
  u ∈ columnCandidates k items strict →
  ∃ datum, datum ∈ items ∧ k ∈ fst <$> own_properties datum ∧
           u = getValueType (property datum k) strict.
Proof.
  induction items as [|datum items IH]; [by intros ?%elem_of_nil|].
  rewrite columnCandidates_cons, elem_of_app. intros [Hu|Hu].
  - apply list_elem_of_fmap in Hu as (key & -> & Hkey).
    apply list_elem_of_filter in Hkey as [-> Hkey].
    exists datum. split_and!; [left|done|apply castTypeToString_getValueType].
  - destruct (IH Hu) as (datum' & Hin & Hk & ->).
    exists datum'. split_and!; [by right|done..].
Qed.

(** No name inherited from [Object.prototype] is a key of [candidateTypes]. *)
Lemma pushCandidate_inherited (strict : bool) (datum : jsvalue)
    (cT cT' : gmap string (list dataType)) (key : string) :
  (∀ name, name ∈ Object_prototype_keys → cT !! name = None) →
  pushCandidate strict datum cT key = Ok cT' →
  ∀ name, name ∈ Object_prototype_keys → cT' !! name = None.
Proof.
  intros Hinh Hpush name Hname. unfold pushCandidate in Hpush.
  destruct (cT !! key) as [types|] eqn:Hkey.
  - injection Hpush as <-. rewrite lookup_insert_ne; [by apply Hinh|].
    intros ->. by rewrite (Hinh _ Hname) in Hkey.
  - destruct (bool_decide_reflect (key ∈ Object_prototype_keys)) as [|Hkey']; [done|].
    injection Hpush as <-. rewrite lookup_insert_ne; [by apply Hinh|].
    by intros ->.
Qed.

Lemma pushCandidates_inherited (strict : bool) (datum : jsvalue) (keys : list string) :
  ∀ cT cT' : gmap string (list dataType),
    (∀ name, name ∈ Object_prototype_keys → cT !! name = None) →
    forEach (pushCandidate strict datum) keys cT = Ok cT' →
    ∀ name, name ∈ Object_prototype_keys → cT' !! name = None.
Proof.
  induction keys as [|key keys IH]; intros cT cT' Hinh; simpl.
  - by intros [= <-].
  - destruct (pushCandidate strict datum cT key) as [cT1|] eqn:Hpush; [|done].
    simpl. apply IH. by eapply pushCandidate_inherited.
Qed.

Lemma pushCandidates_throw (strict : bool) (datum : jsvalue) (keys : list string) :
  ∀ cT : gmap string (list dataType),
    (∀ name, name ∈ Object_prototype_keys → cT !! name = None) →
    ¬ Forall (λ key, key ∉ Object_prototype_keys) keys →
    forEach (pushCandidate strict datum) keys cT = Throw TypeError.
Proof.
  induction keys as [|key keys IH]; intros cT Hinh Hbad; simpl.
  - destruct Hbad. constructor.
  - destruct (decide (key ∈ Object_prototype_keys)) as [Hkey|Hkey].
    + assert (pushCandidate strict datum cT key = Throw TypeError) as ->; [|done].
      unfold pushCandidate. rewrite (Hinh _ Hkey).
      by rewrite bool_decide_eq_true_2.
    + destruct (pushCandidate strict datum cT key) as [cT1|] eqn:Hpush.
      * simpl. apply IH; [by eapply pushCandidate_inherited|].
        intros Hrest. apply Hbad. by constructor.
      * exfalso. unfold pushCandidate in Hpush.
        destruct (cT !! key); [done|].
        by rewrite bool_decide_eq_false_2 in Hpush.
Qed.

Lemma candidateTypes_throw (strict : bool) (items : list jsvalue) :
  ∀ cT : gmap string (list dataType),
    (∀ name, name ∈ Object_prototype_keys → cT !! name = None) →
    ¬ Forall plainRow items →
    forEach (λ acc datum,
               keys ← Object_keys datum;
               forEach (pushCandidate strict datum) keys acc) items cT
    = Throw TypeError.
Proof.
  induction items as [|datum items IH]; intros cT Hinh Hbad; simpl.
  - destruct Hbad. constructor.
  - destruct (Object_keys datum) as [keys|e] eqn:Hkeys; simpl.
    + assert (keys = fst <$> own_properties datum ∧
              datum ≠ Undefined ∧ datum ≠ Null) as (-> & Hu & Hn)
        by (unfold Object_keys in Hkeys; destruct datum; split_and!; congruence).
      destruct (decide (Forall (λ key, key ∉ Object_prototype_keys)
                               (fst <$> own_properties datum))) as [Hkeysok|Hkeysbad].
      * destruct (pushCandidates_total strict datum _ Hkeysok cT) as [cT1 Hrow].
        rewrite Hrow. simpl. apply IH.
        -- by eapply pushCandidates_inherited.
        -- intros Hrest. apply Hbad. by constructor.
      * by rewrite pushCandidates_throw.
    + unfold Object_keys in Hkeys. destruct datum; congruence.
Qed.

Lemma count_key_NoDup (k : string) (keys : list string) :
  NoDup keys →
  length (filter (λ key, key = k) keys) = if decide (k ∈ keys) then 1 else 0.
Proof.
  induction 1 as [|key keys Hnotin Hnd IH]; [done|].
  rewrite filter_cons. destruct (decide (key = k)) as [->|Hne].
  - rewrite decide_True by left. simpl. rewrite IH.
    by rewrite decide_False.
  - rewrite IH. destruct (decide (k ∈ keys)) as [Hin|Hnin].
    + by rewrite decide_True by (by right).
    + rewrite decide_False; [done|]. rewrite elem_of_cons. intros [->|]; done.
Qed.

Lemma castTypesToString_agree (types : gmap string dataType) :
  "__proto__" ∉ dom types → castTypesToString types = castTypeToString <$> types.
Proof.
  unfold castTypesToString.
  apply (map_fold_weak_ind (λ acc (m : gmap string dataType),
    "__proto__" ∉ dom m → acc = castTypeToString <$> m)).
  - intros _. by rewrite fmap_empty.
  - intros i d m acc Hi IH Hdom.
    rewrite dom_insert_L, not_elem_of_union, not_elem_of_singleton in Hdom.
    destruct Hdom as [Hne Hdom].
    rewrite assign_other by done. rewrite (IH Hdom). by rewrite fmap_insert.
Qed.

(** [inferTypes] returns no type map with a key inherited from
    [Object.prototype]. *)
Lemma inferTypes_inherited (data : jsvalue) (strict : bool)
    (tm : gmap string dataType) (name : string) :
  inferTypes data strict = Ok tm → name ∈ Object_prototype_keys → tm !! name = None.
Proof.
  intros Hinf Hname.
  destruct data as [| | | | | | |items];
    try (injection Hinf as <-; apply lookup_empty).
  destruct (tm !! name) as [w|] eqn:Hw; [exfalso|done].
  apply (inferTypes_elem _ _ _ _ _ Hinf), columnCandidates_source in Hw
    as (datum & Hin & Hk & _).
  assert (¬ Forall plainRow items) as Hbad.
  { intros Hall. rewrite Forall_forall in Hall.
    destruct (Hall _ Hin) as (_ & _ & Hkeys).
    rewrite Forall_forall in Hkeys. by apply (Hkeys _ Hk). }
  unfold inferTypes, candidateTypes in Hinf.
  rewrite candidateTypes_throw in Hinf; [done| |done].
  intros ? _. apply lookup_empty.
Qed.

End InferenceFacts.

(** X12. The keys of the inferred type map are the columns that occur in
    at least one record. *)
Theorem inferTypes_columns `{Externals} (items : list jsvalue) (strict : bool)
    (tm : gmap string dataType) (k : string) :
  inferTypes (Arr items) strict = Ok tm →
  k ∈ dom tm ↔ ∃ datum keys, datum ∈ items ∧ Object_keys datum = Ok keys ∧ k ∈ keys.
Proof.
  intros Hinf. rewrite elem_of_dom, (inferTypes_Some _ _ _ _ Hinf).
  rewrite columnCandidates_nil_iff. split.
  - intros (datum & Hin & Hk). exists datum, (fst <$> own_properties datum).
    split_and!; [done| |done].
    destruct datum; try done; simpl in Hk; by apply elem_of_nil in Hk.
  - intros (datum & keys & Hin & Hkeys & Hk). exists datum. split; [done|].
    unfold Object_keys in Hkeys. destruct datum; congruence.
Qed.

Lemma inferTypes_columns_witness :
  inferTypes (Arr Sample.votes) false = Ok {["a" := TStr "number"]} ∧
  ("a" ∈ dom ({["a" := TStr "number"]} : gmap string dataType) ↔
   ∃ datum keys, datum ∈ Sample.votes ∧ Object_keys datum = Ok keys ∧ "a" ∈ keys).
Proof.
  split; [vm_compute; reflexivity|].
  apply (inferTypes_columns Sample.votes false {["a" := TStr "number"]} "a").
  vm_compute; reflexivity.
Defined.

(** X13. Every inferred type is one of the labels ["number"], ["boolean"],
    ["date"], ["string"] or the descriptor
    [{type: "date", dateFormat: "YYYY-MM-DD"}]. *)
Theorem inferTypes_labels `{Externals} (data : jsvalue) (strict : bool)
    (tm : gmap string dataType) (k : string) (w : dataType) :
  inferTypes data strict = Ok tm →
  tm !! k = Some w →
  w ∈ [TStr "number"; TStr "boolean"; TStr "date";
       TObj (Some (TStr "date")) (Some "YYYY-MM-DD") None; TStr "string"].
Proof.
  intros Hinf Hw. destruct data as [| | | | | | |items];
    try (injection Hinf as <-; by rewrite lookup_empty in Hw).
  apply (inferTypes_elem _ _ _ _ _ Hinf), columnCandidates_elem in Hw as [value ->].
  apply getValueType_cases.
Qed.

Lemma inferTypes_labels_witness :
  inferTypes (Arr Sample.dated) false
  = Ok {["d" := TObj (Some (TStr "date")) (Some "YYYY-MM-DD") None]} ∧
  ({["d" := TObj (Some (TStr "date")) (Some "YYYY-MM-DD") None]}
     : gmap string dataType) !! "d"
  = Some (TObj (Some (TStr "date")) (Some "YYYY-MM-DD") None) ∧
  TObj (Some (TStr "date")) (Some "YYYY-MM-DD") None
  ∈ [TStr "number"; TStr "boolean"; TStr "date";
     TObj (Some (TStr "date")) (Some "YYYY-MM-DD") None; TStr "string"].
Proof.
  split; [vm_compute; reflexivity|]. split; [reflexivity|].
  apply (inferTypes_labels (Arr Sample.dated) false
           {["d" := TObj (Some (TStr "date")) (Some "YYYY-MM-DD") None]} "d").
  - vm_compute; reflexivity.
  - reflexivity.
Defined.

(** X14. On an array, [inferTypes] returns a type map when no row is
    [null] or [undefined] and no row has a key named like a property of
    [Object.prototype]; otherwise it throws a TypeError. *)
Theorem inferTypes_returns_or_throws `{Externals} (items : list jsvalue) (strict : bool) :
  (Forall plainRow items → ∃ tm, inferTypes (Arr items) strict = Ok tm) ∧
  (¬ Forall plainRow items → inferTypes (Arr items) strict = Throw TypeError).
Proof.
  split; [apply inferTypes_total|].
  intros Hbad. unfold inferTypes, candidateTypes.
  rewrite candidateTypes_throw; [done| |done].
  intros name _. apply lookup_empty.
Qed.

(** X16. The type map [inferTypes] returns holds labels and descriptor
    objects only: [castTypesToString] leaves it unchanged. *)
Theorem inferTypes_cast_fixed `{Externals} (data : jsvalue) (strict : bool)
    (tm : gmap string dataType) :
  inferTypes data strict = Ok tm → castTypesToString tm = tm.
Proof.
  intros Hinf. rewrite castTypesToString_agree.
  2: { apply not_elem_of_dom. apply (inferTypes_inherited _ _ _ _ Hinf).
       unfold Object_prototype_keys. set_solver. }
  apply map_eq. intros k.
  rewrite lookup_fmap. destruct (tm !! k) as [w|] eqn:Hw; [|done]. simpl. f_equal.
  destruct data as [| | | | | | |items];
    try (injection Hinf as <-; by rewrite lookup_empty in Hw).
  apply (inferTypes_elem _ _ _ _ _ Hinf), columnCandidates_elem in Hw as [value ->].
  apply castTypeToString_getValueType.
Qed.

Lemma inferTypes_cast_fixed_witness :
  inferTypes (Arr Sample.votes) false = Ok {["a" := TStr "number"]} ∧
  castTypesToString {["a" := TStr "number"]} = {["a" := TStr "number"]}.
Proof.
  split; [vm_compute; reflexivity|].
  apply (inferTypes_cast_fixed (Arr Sample.votes) false {["a" := TStr "number"]}).
  vm_compute; reflexivity.
Defined.

(** X17. In strict mode no JSON parsing is tried: a column that holds a
    string in every record that has it is never inferred as ["number"],
    ["boolean"] or ["date"], but as ["string"] or as the configured
    date. *)
Theorem inferTypes_strict_strings `{Externals} (items : list jsvalue)
    (tm : gmap string dataType) (k : string) (w : dataType) :
  inferTypes (Arr items) true = Ok tm →
  (∀ datum keys, datum ∈ items → Object_keys datum = Ok keys → k ∈ keys →
     ∃ s, property datum k = Str s) →
  tm !! k = Some w →
  w = TStr "string" ∨ w = TObj (Some (TStr "date")) (Some "YYYY-MM-DD") None.
Proof.
  intros Hinf Hstr Hw.
  apply (inferTypes_elem _ _ _ _ _ Hinf), columnCandidates_source in Hw
    as (datum & Hin & Hk & ->).
  destruct (Hstr datum (fst <$> own_properties datum) Hin) as [s ->]; [|done|].
  { destruct datum; try done; simpl in Hk; by apply elem_of_nil in Hk. }
  unfold getValueType. simpl.
  destruct (isValid (dayjs (Str s) "YYYY-MM-DD")); [by right|by left].
Qed.

Lemma inferTypes_strict_strings_witness :
  inferTypes (Arr Sample.votes) true = Ok {["a" := TStr "string"]} ∧
  (∀ datum keys, datum ∈ Sample.votes → Object_keys datum = Ok keys → "a" ∈ keys →
     ∃ s, property datum "a" = Str s) ∧
  ({["a" := TStr "string"]} : gmap string dataType) !! "a" = Some (TStr "string") ∧
  (TStr "string" = TStr "string" ∨
   TStr "string" = TObj (Some (TStr "date")) (Some "YYYY-MM-DD") None).
Proof.
  assert (∀ datum keys, datum ∈ Sample.votes → Object_keys datum = Ok keys →
            "a" ∈ keys → ∃ s, property datum "a" = Str s) as Hstr.
  { intros datum keys Hin _ _. unfold Sample.votes in Hin.
    rewrite !elem_of_cons in Hin.
    destruct Hin as [->|[->|[->|Hin]]]; [by eexists..|by apply elem_of_nil in Hin]. }
  split; [vm_compute; reflexivity|]. split; [exact Hstr|].
  split; [reflexivity|].
  apply (inferTypes_strict_strings Sample.votes {["a" := TStr "string"]} "a"
           (TStr "string")).
  - vm_compute; reflexivity.
  - exact Hstr.
  - reflexivity.
Defined.

(** X18. A column gets one candidate from each record that has it and none
    from the others: its number of candidates is the number of records
    with that key. *)
Theorem candidates_one_per_record `{Externals} (items : list jsvalue) (strict : bool)
    (candidates : gmap string (list dataType)) (k : string) :
  candidateTypes items strict = Ok candidates →
  Forall (λ datum, NoDup (fst <$> own_properties datum)) items →
  length (default [] (candidates !! k))
  = length (filter (λ datum, k ∈ fst <$> own_properties datum) items).
Proof.
  intros Hc Hnd. rewrite (candidateTypes_lookup _ _ _ k Hc).
  assert (default [] (pushed None (columnCandidates k items strict))
          = columnCandidates k items strict) as ->
    by (by destruct (columnCandidates k items strict)).
  clear Hc. induction Hnd as [|datum items Hdatum _ IH]; [done|].
  rewrite columnCandidates_cons, length_app, length_fmap, IH, filter_cons.
  rewrite (count_key_NoDup _ _ Hdatum).
  destruct (decide (k ∈ fst <$> own_properties datum)); done.
Qed.

Lemma candidates_one_per_record_witness :
  candidateTypes Sample.votes false = Ok Sample.voteCandidates ∧
  Forall (λ datum, NoDup (fst <$> own_properties datum)) Sample.votes ∧
  length (default [] (Sample.voteCandidates !! "a"))
  = length (filter (λ datum, "a" ∈ fst <$> own_properties datum) Sample.votes).
Proof.
  assert (Forall (λ datum, NoDup (fst <$> own_properties datum)) Sample.votes) as Hnd.
  { repeat constructor; by intros ?%elem_of_nil. }
  split; [vm_compute; reflexivity|]. split; [exact Hnd|].
  apply (candidates_one_per_record Sample.votes false Sample.voteCandidates "a").
  - vm_compute; reflexivity.
  - exact Hnd.
Defined.
